(** * SEC insider-activity pipeline ([sec_tools.py]): a shallow embedding

    The first part is the embedding, in the order of the source file: the
    daily-index retriever and parser, the date-range collector, the
    document locator, the Form 4 document parser, the activity summary
    loop, the per-issuer aggregation and the weekly baseline, followed by
    the aggregation on shared objects, by sample data and by the
    definitions that the statements of the second part use.  The second
    part holds the properties, in the same order, and after them further
    properties of the report, the limit, the spans, the locator and the
    index parser.

    Conventions.
    - Python [str] and [bytes] values are Rocq [string]s (sequences of 8-bit
      characters).  The index files are decoded as latin-1, for which this
      is exact (the decoding is the identity on code points below 256).
    - Python exceptions are values of [exn]; a call that may raise returns a
      [result].  [try: ... except Exception: continue] is a [match] on it.
    - float64 values are the kernel's binary64 floats ([PrimFloat.float]).
    - The network is an oracle [server] from URLs to responses, fixed for
      the duration of one run.
    - Library functions whose text is not part of the repository
      ([json.loads], [ET.fromstring], [float], [int], [pd.to_datetime]) are
      parameters of the sections that use them. *)

From Stdlib Require Import ZArith Lia Bool String Ascii List PrimFloat Uint63.
From Stdlib Require Import Permutation DecimalString OrderedTypeEx.
From stdpp Require Import base option list gmap strings sorting.
Import ListNotations.

Set Warnings "-register-all,-inexact-float".
Set Default Proof Using "Type".

Local Open Scope Z_scope.

(** ** Exceptions *)

Inductive exn : Type :=
  | ValueError
  | TypeError
  | AttributeError
  | HTTPError
  | RequestException
  | ParseError.

Inductive result (A : Type) : Type :=
  | Ok (a : A)
  | Raise (e : exn).
Arguments Ok {A} a.
Arguments Raise {A} e.

Definition rbind {A B : Type} (m : result A) (k : A -> result B) : result B :=
  match m with
  | Ok a => k a
  | Raise e => Raise e
  end.

Notation "'do' x <- m ; k" := (rbind m (fun x => k))
  (at level 10, x name, m at level 100, k at level 200).

(** ** Strings *)

Module Str.

Definition code (c : ascii) : nat := nat_of_ascii c.

Definition is_digit (c : ascii) : bool :=
  (48 <=? code c)%nat && (code c <=? 57)%nat.

(** Line boundaries of [str.splitlines] among the first 256 code points:
    LF, VT, FF, CR, FS, GS, RS and NEL. *)
Definition is_linebreak (c : ascii) : bool :=
  let n := code c in
  (n =? 10)%nat || (n =? 11)%nat || (n =? 12)%nat || (n =? 13)%nat
  || (n =? 28)%nat || (n =? 29)%nat || (n =? 30)%nat || (n =? 133)%nat.

(** Characters removed by [str.strip()] among the first 256 code points. *)
Definition is_space (c : ascii) : bool :=
  let n := code c in
  ((9 <=? n)%nat && (n <=? 13)%nat) || ((28 <=? n)%nat && (n <=? 32)%nat)
  || (n =? 133)%nat || (n =? 160)%nat.

(** [str.splitlines()]: the head of the result is the line in progress;
    CR LF is one boundary; a final boundary opens no further line. *)
Fixpoint splitlines (s : string) : list string :=
  match s with
  | EmptyString => []
  | String c s' =>
      if is_linebreak c then
        match s' with
        | String c' s'' =>
            if ((code c =? 13)%nat && (code c' =? 10)%nat)%bool
            then EmptyString :: splitlines s''
            else EmptyString :: splitlines s'
        | EmptyString => [EmptyString]
        end
      else
        match splitlines s' with
        | [] => [String c EmptyString]
        | l :: ls => String c l :: ls
        end
  end.

(** [sep in s] for a one-character [sep]. *)
Fixpoint contains_char (sep : ascii) (s : string) : bool :=
  match s with
  | EmptyString => false
  | String c s' => Ascii.eqb c sep || contains_char sep s'
  end.

(** [s.split(sep)] for a one-character [sep]: never empty. *)
Fixpoint split (sep : ascii) (s : string) : list string :=
  match s with
  | EmptyString => [EmptyString]
  | String c s' =>
      if Ascii.eqb c sep then EmptyString :: split sep s'
      else match split sep s' with
           | [] => [String c EmptyString]
           | f :: fs => String c f :: fs
           end
  end.

Definition startswith (s p : string) : bool := String.prefix p s.

Fixpoint endswith_aux (rs rp : list ascii) : bool :=
  match rp, rs with
  | [], _ => true
  | _ :: _, [] => false
  | a :: rp', b :: rs' => Ascii.eqb a b && endswith_aux rs' rp'
  end.

Definition endswith (s p : string) : bool :=
  endswith_aux (rev (list_ascii_of_string s)) (rev (list_ascii_of_string p)).

(** [p in s]. *)
Fixpoint contains (p s : string) : bool :=
  String.prefix p s ||
  match s with
  | EmptyString => false
  | String _ s' => contains p s'
  end.

Fixpoint lstrip (s : string) : string :=
  match s with
  | EmptyString => EmptyString
  | String c s' => if is_space c then lstrip s' else s
  end.

Definition rev_string (s : string) : string :=
  string_of_list_ascii (rev (list_ascii_of_string s)).

Definition strip (s : string) : string :=
  rev_string (lstrip (rev_string (lstrip s))).

(** [str.lower()] on the first 256 code points. *)
Definition lower_char (c : ascii) : ascii :=
  let n := code c in
  if ((65 <=? n)%nat && (n <=? 90)%nat)
     || ((192 <=? n)%nat && (n <=? 222)%nat && negb (n =? 215)%nat)
  then ascii_of_nat (n + 32) else c.

Fixpoint lower (s : string) : string :=
  match s with
  | EmptyString => EmptyString
  | String c s' => String (lower_char c) (lower s')
  end.

(** [s.replace(c, "")] for a one-character [c]. *)
Fixpoint remove_char (c : ascii) (s : string) : string :=
  match s with
  | EmptyString => EmptyString
  | String a s' =>
      if Ascii.eqb a c then remove_char c s' else String a (remove_char c s')
  end.

Fixpoint repeat_char (c : ascii) (n : nat) : string :=
  match n with
  | O => EmptyString
  | S n' => String c (repeat_char c n')
  end.

(** [s.zfill(width)]: zeros go after a leading sign. *)
Definition zfill (width : nat) (s : string) : string :=
  let n := String.length s in
  if (width <=? n)%nat then s
  else
    let pad := repeat_char "0"%char (width - n) in
    match s with
    | String c s' =>
        if Ascii.eqb c "+"%char || Ascii.eqb c "-"%char
        then String c (pad +:+ s')
        else pad +:+ s
    | EmptyString => pad
    end.

(** [str(n)] and the [{n}] of an f-string, for an integer. *)
Definition of_Z (n : Z) : string := NilZero.string_of_int (Z.to_int n).

End Str.

(** ** Dates

    A [datetime] is modelled by the proleptic Gregorian ordinal of its date
    ([date.toordinal()]): the collector compares [.date()]s only and steps
    by whole days.  The time of day and the representable range of
    [datetime] (years 1 to 9999) are not modelled; [strftime] is the one of
    years with four digits. *)

Module Date.

Definition datetime := Z.

(** Year, month and day of an ordinal (day 1 is 0001-01-01), by the
    era / day-of-era decomposition of the Gregorian calendar. *)
Definition ymd (ordinal : Z) : Z * Z * Z :=
  let z := ordinal + 305 in
  let era := z / 146097 in
  let doe := z - era * 146097 in
  let yoe := (doe - doe / 1460 + doe / 36524 - doe / 146096) / 365 in
  let doy := doe - (365 * yoe + yoe / 4 - yoe / 100) in
  let mp := (5 * doy + 2) / 153 in
  let d := doy - (153 * mp + 2) / 5 + 1 in
  let m := if mp <? 10 then mp + 3 else mp - 9 in
  let y := yoe + era * 400 + (if m <=? 2 then 1 else 0) in
  (y, m, d).

Definition year (dt : datetime) : Z := fst (fst (ymd dt)).
Definition month (dt : datetime) : Z := snd (fst (ymd dt)).
Definition day (dt : datetime) : Z := snd (ymd dt).

Definition pad (width : nat) (n : Z) : string := Str.zfill width (Str.of_Z n).

(** [dt.strftime("%Y%m%d")] *)
Definition strftime_compact (dt : datetime) : string :=
  pad 4 (year dt) +:+ pad 2 (month dt) +:+ pad 2 (day dt).

(** [dt.strftime("%Y-%m-%d")] *)
Definition strftime_iso (dt : datetime) : string :=
  pad 4 (year dt) +:+ "-" +:+ pad 2 (month dt) +:+ "-" +:+ pad 2 (day dt).

End Date.

(** ** The daily index: URL and parser *)

Definition SEC_BASE : string := "https://www.sec.gov".

Definition _quarter_of (dt : Date.datetime) : Z := (Date.month dt - 1) / 3 + 1.

Definition _idx_url_for_date (dt : Date.datetime) : string :=
  let q := _quarter_of dt in
  let y := Date.year dt in
  let ds := Date.strftime_compact dt in
  SEC_BASE +:+ "/Archives/edgar/daily-index/" +:+ Str.of_Z y +:+ "/Q" +:+ Str.of_Z q
    +:+ "/master." +:+ ds +:+ ".idx".

(** A row of the index frame: the five columns
    CIK | Company Name | Form Type | Date Filed | Filename.
    A cell is [None] where [pd.DataFrame] padded a short row. *)
Record idx_row : Type := mk_idx_row {
  ir_CIK : option string;
  ir_Company_Name : option string;
  ir_Form_Type : option string;
  ir_Date_Filed : option string;
  ir_Filename : option string
}.

Definition idx_columns : list string :=
  ["CIK"; "Company Name"; "Form Type"; "Date Filed"; "Filename"]%string.

(** The loop that looks for the header delimiter: [start] is one past the
    index of the last line that begins with five dashes, 0 without one. *)
Definition header_step (st : nat * nat) (line : string) : nat * nat :=
  let '(i, start) := st in
  (S i, if Str.startswith line "-----" then S i else start).

Definition header_end (lines : list string) : nat :=
  snd (fold_left header_step lines (O, O)).

Definition has_pipe (ln : string) : bool := Str.contains_char "|"%char ln.

Definition data_lines (lines : list string) : list string :=
  List.filter has_pipe (skipn (header_end lines) lines).

Definition widest (rows : list (list string)) : nat :=
  fold_right (fun r m => Nat.max (List.length r) m) O rows.

Definition row_of_fields (fs : list string) : idx_row :=
  {| ir_CIK := nth_error fs 0;
     ir_Company_Name := nth_error fs 1;
     ir_Form_Type := nth_error fs 2;
     ir_Date_Filed := nth_error fs 3;
     ir_Filename := nth_error fs 4 |}.

(** [pd.DataFrame(rows, columns=[...five names...])] on a non-empty list of
    lists: short rows are padded with [None]; the call raises [ValueError]
    unless the widest row has exactly as many cells as there are columns. *)
Definition DataFrame_of_rows (rows : list (list string)) : result (list idx_row) :=
  if (widest rows =? List.length idx_columns)%nat
  then Ok (map row_of_fields rows)
  else Raise ValueError.

(** The body of [fetch_daily_master_idx] after the download. *)
Definition parse_master_idx (text : string) : result (list idx_row) :=
  let lines := Str.splitlines text in
  let rows := map (Str.split "|"%char) (data_lines lines) in
  match rows with
  | [] => Ok []
  | _ :: _ => DataFrame_of_rows rows
  end.

(** The count the specification speaks of, read off the lines one by one: a
    line beginning with five dashes starts the count afresh, a later line
    with a pipe adds one. *)
Definition count_step (n : nat) (line : string) : nat :=
  if Str.startswith line "-----" then O
  else if has_pipe line then S n else n.

Definition pipe_lines_after_header (text : string) : nat :=
  fold_left count_step (Str.splitlines text) O.

Definition widest_data_row (text : string) : nat :=
  widest (map (Str.split "|"%char) (data_lines (Str.splitlines text))).

Definition LF : string := String (ascii_of_nat 10) EmptyString.

Definition sample_idx : string :=
  "Description: Daily Index" +:+ LF +:+
  "CIK|Company Name|Form Type|Date Filed|File Name" +:+ LF +:+
  "--------------------------------------------" +:+ LF +:+
  "320193|Apple Inc.|4|20250102|edgar/data/320193/0000320193-25-000123.txt" +:+ LF +:+
  "789019|MICROSOFT CORP|10-K|20250102|edgar/data/789019/0000789019-25-000007.txt" +:+ LF +:+
  "1318605|Tesla, Inc.|4/A|20250102|edgar/data/1318605/0001318605-25-000044.txt" +:+ LF.

(** A blob whose only data line has two fields: [pd.DataFrame] refuses it. *)
Definition two_field_idx : string :=
  "-----" +:+ LF +:+ "320193|Apple Inc." +:+ LF.

(** ** The date-range collector *)

(** A row of the filings frame: the index columns and the [date] column. *)
Record filing : Type := mk_filing {
  f_CIK : option string;
  f_Company_Name : option string;
  f_Form_Type : option string;
  f_Date_Filed : option string;
  f_Filename : option string;
  f_date : option string
}.

(** [str(x)] of a cell: the text itself, or the text of [None]. *)
Definition py_str (c : option string) : string :=
  match c with Some s => s | None => "None"%string end.

(** [df["Form Type"].isin(["4","4/A"])] *)
Definition is_form4 (r : idx_row) : bool :=
  match ir_Form_Type r with
  | Some t => String.eqb t "4" || String.eqb t "4/A"
  | None => false
  end.

(** [df["date"] = d.strftime("%Y-%m-%d")] on the filtered copy. *)
Definition stamp (d : Date.datetime) (r : idx_row) : filing :=
  {| f_CIK := ir_CIK r;
     f_Company_Name := ir_Company_Name r;
     f_Form_Type := ir_Form_Type r;
     f_Date_Filed := ir_Date_Filed r;
     f_Filename := ir_Filename r;
     f_date := Some (Date.strftime_iso d) |}.

(** [out["CIK"] = out["CIK"].astype(str).str.zfill(10)] *)
Definition normalize_cik (f : filing) : filing :=
  {| f_CIK := Some (Str.zfill 10 (py_str (f_CIK f)));
     f_Company_Name := f_Company_Name f;
     f_Form_Type := f_Form_Type f;
     f_Date_Filed := f_Date_Filed f;
     f_Filename := f_Filename f;
     f_date := f_date f |}.

(** The [while cur.date() <= end_dt.date()] loop, with the number of
    iterations it can take as fuel. *)
Fixpoint dates_from (fuel : nat) (cur end_dt : Date.datetime) : list Date.datetime :=
  match fuel with
  | O => []
  | S fuel' =>
      if cur <=? end_dt then cur :: dates_from fuel' (cur + 1) end_dt else []
  end.

Definition date_list (start_dt end_dt : Date.datetime) : list Date.datetime :=
  dates_from (Z.to_nat (end_dt - start_dt + 1)) start_dt end_dt.

Section Network.

(** What the server answers to a GET: the body, or the exception that
    [requests.get] or [raise_for_status] raises. *)
Variable server : string -> result string.

Definition _http_get (url : string) : result string := server url.

Definition fetch_daily_master_idx (dt : Date.datetime) : result (list idx_row) :=
  let url := _idx_url_for_date dt in
  do raw <- _http_get url;
  parse_master_idx raw.

(** One iteration of [for d in dates], both [except] branches included. *)
Definition collect_step (frames : list (list filing)) (d : Date.datetime)
  : list (list filing) :=
  match fetch_daily_master_idx d with
  | Ok df =>
      match df with
      | [] => frames
      | _ :: _ => frames ++ [map (stamp d) (List.filter is_form4 df)]
      end
  | Raise _ => frames
  end.

Definition list_form4_filings_for_range (start_dt end_dt : Date.datetime)
  : list filing :=
  let dates := date_list start_dt end_dt in
  let frames := fold_left collect_step dates [] in
  match frames with
  | [] => []
  | _ :: _ => map normalize_cik (concat frames)
  end.

(** What one day contributes to the result. *)
Definition day_rows (d : Date.datetime) : list filing :=
  match fetch_daily_master_idx d with
  | Ok df => map normalize_cik (map (stamp d) (List.filter is_form4 df))
  | Raise _ => []
  end.

End Network.

(** ** The document locator *)

(** *** The two filename patterns

    [re.search] tries every start position from the left.  In both
    patterns each repetition is followed by a character outside its class,
    so at a given start position the longest run is the only candidate and
    no backtracking is involved.  Among the first 256 code points the
    class [\d] is 0-9. *)

Module Re.

Fixpoint take_while (p : ascii -> bool) (s : string) : string * string :=
  match s with
  | EmptyString => (EmptyString, EmptyString)
  | String c s' =>
      if p c then let '(a, b) := take_while p s' in (String c a, b)
      else (EmptyString, s)
  end.

(** [s] without its prefix [lit], when it has it. *)
Fixpoint literal (lit s : string) : option string :=
  match lit, s with
  | EmptyString, _ => Some s
  | String a lit', String b s' => if Ascii.eqb a b then literal lit' s' else None
  | String _ _, EmptyString => None
  end.

(** Exactly [n] digits. *)
Fixpoint digits (n : nat) (s : string) : option (string * string) :=
  match n with
  | O => Some (EmptyString, s)
  | S n' =>
      match s with
      | String c s' =>
          if Str.is_digit c then
            match digits n' s' with
            | Some (a, b) => Some (String c a, b)
            | None => None
            end
          else None
      | EmptyString => None
      end
  end.

Definition some_run (p : ascii -> bool) (s : string) : option (string * string) :=
  let '(a, b) := take_while p s in
  match a with
  | EmptyString => None
  | String _ _ => Some (a, b)
  end.

(** [edgar/data/(\d+)/(\d{10}-\d{2}-\d{6})\.txt] at the start of [s]:
    the two groups. *)
Definition strict_at (s : string) : option (string * string) :=
  s1 ← literal "edgar/data/" s;
  '(cik, s2) ← some_run Str.is_digit s1;
  s3 ← literal "/" s2;
  '(a, s4) ← digits 10 s3;
  s5 ← literal "-" s4;
  '(b, s6) ← digits 2 s5;
  s7 ← literal "-" s6;
  '(c, s8) ← digits 6 s7;
  _ ← literal ".txt" s8;
  Some (cik, a +:+ "-" +:+ b +:+ "-" +:+ c).

Definition is_digit_or_dash (c : ascii) : bool :=
  Str.is_digit c || Ascii.eqb c "-"%char.

(** [edgar/data/(\d+)/([0-9-]+)\.txt] at the start of [s]. *)
Definition loose_at (s : string) : option (string * string) :=
  s1 ← literal "edgar/data/" s;
  '(cik, s2) ← some_run Str.is_digit s1;
  s3 ← literal "/" s2;
  '(acc, s4) ← some_run is_digit_or_dash s3;
  _ ← literal ".txt" s4;
  Some (cik, acc).

Fixpoint search {A : Type} (at_start : string -> option A) (s : string) : option A :=
  match at_start s with
  | Some r => Some r
  | None =>
      match s with
      | EmptyString => None
      | String _ s' => search at_start s'
      end
  end.

End Re.

Definition _extract_accession_and_dirpath (filename : option string)
  : result (string * string) :=
  match filename with
  | None => Raise TypeError
  | Some filename =>
      match Re.search Re.strict_at filename with
      | None =>
          match Re.search Re.loose_at filename with
          | None => Raise ValueError
          | Some (cik, g2) =>
              let accession := Str.remove_char "-"%char g2 in
              let dirpath := SEC_BASE +:+ "/Archives/edgar/data/" +:+ cik +:+ "/" +:+ accession in
              Ok (accession, dirpath)
          end
      | Some (cik, g2) =>
          let accession := Str.remove_char "-"%char g2 in
          let dirpath := SEC_BASE +:+ "/Archives/edgar/data/" +:+ cik +:+ "/" +:+ accession in
          Ok (accession, dirpath)
      end
  end.

(** *** JSON values, as [json.loads] builds them *)

Inductive json : Type :=
  | JNull
  | JBool (b : bool)
  | JInt (n : Z)
  | JFloat (x : float)
  | JStr (s : string)
  | JArr (items : list json)
  | JObj (members : gmap string json).

(** [v.get(key, default)]: only a dict has the method. *)
Definition json_get (v : json) (key : string) (default : json) : result json :=
  match v with
  | JObj m => Ok (match m !! key with Some x => x | None => default end)
  | _ => Raise AttributeError
  end.

(** The values a [for] loop over [v] visits: the items of a list, the keys
    of a dict, the characters of a string; other values are not iterable. *)
Definition json_iter (v : json) : result (list json) :=
  match v with
  | JArr items => Ok items
  | JObj m => Ok (map (fun kv => JStr (fst kv)) (map_to_list m))
  | JStr s => Ok (map (fun c => JStr (String c EmptyString)) (list_ascii_of_string s))
  | _ => Raise TypeError
  end.

Definition is_form4_name (name : string) : bool :=
  String.eqb name "form4.xml"
  || Str.endswith name "_form4.xml"
  || (Str.endswith name ".xml" && Str.contains "form4" name).

(** The loop over the directory items, returning at the first match.
    [.lower()] exists on strings only; when the test on the lowered name
    holds the key is present, so [f['name']] is the string just read. *)
Fixpoint scan_items (dirpath : string) (items : list json) : result (option string) :=
  match items with
  | [] => Ok None
  | f :: rest =>
      do v <- json_get f "name" (JStr EmptyString);
      match v with
      | JStr s =>
          let name := Str.lower s in
          if is_form4_name name
          then Ok (Some (dirpath +:+ "/" +:+ s))
          else scan_items dirpath rest
      | _ => Raise AttributeError
      end
  end.

(** ** The Form 4 document *)

(** An [xml.etree.ElementTree] element: tag, text and children.  The
    default parser keeps neither comments nor processing instructions. *)
Inductive element : Type :=
  | Element (tag : string) (text : option string) (children : list element).

Definition tag (e : element) : string := let '(Element t _ _) := e in t.
Definition text (e : element) : option string := let '(Element _ x _) := e in x.
Definition children (e : element) : list element := let '(Element _ _ cs) := e in cs.

(** The elements below [e], in document order ([e.iter()] without [e]). *)
Fixpoint descendants (e : element) : list element :=
  match e with
  | Element _ _ cs => flat_map (fun c => c :: descendants c) cs
  end.

Definition has_tag (t : string) (e : element) : bool := String.eqb (tag e) t.

Definition children_with (t : string) (e : element) : list element :=
  List.filter (has_tag t) (children e).

(** The steps of the ElementPath expressions the parser uses: [/t] selects
    children, [//t] descendants. *)
Inductive step : Type :=
  | Child (t : string)
  | Desc (t : string).

Definition select (st : step) (context : list element) : list element :=
  match st with
  | Child t => flat_map (children_with t) context
  | Desc t => flat_map (fun e => List.filter (has_tag t) (descendants e)) context
  end.

Definition findall (path : list step) (e : element) : list element :=
  fold_left (fun context st => select st context) path [e].

(** [e.findtext(path, default)]: the text of the first match, the empty
    string when that element has none, [default] without a match. *)
Definition findtext (path : list step) (default : option string) (e : element)
  : option string :=
  match findall path e with
  | [] => default
  | x :: _ => Some (match text x with Some s => s | None => EmptyString end)
  end.

(** [(x or "").strip()] *)
Definition or_empty_strip (x : option string) : string :=
  Str.strip (match x with Some s => s | None => EmptyString end).

(** A transaction as the parser emits it. *)
Record raw_tx : Type := mk_raw_tx {
  r_issuerSymbol : string;
  r_issuerName : string;
  r_transactionCode : string;
  r_shares : option float;
  r_price : option float;
  r_date : option string;
  r_ownership : option string
}.

Record form4 : Type := mk_form4 {
  p_issuerSymbol : string;
  p_issuerName : string;
  p_transactions : list raw_tx
}.

Definition TABLE : string := "nonDerivativeTable".
Definition TRANSACTION : string := "nonDerivativeTransaction".

Section Form4.

(** [float(s)]: [None] stands for the [ValueError] of an unparsable text. *)
Variable py_float : string -> option float.

(** [try: x = float(x) if x is not None else None / except: x = None] *)
Definition to_float (x : option string) : option float :=
  match x with
  | Some s => py_float s
  | None => None
  end.

(** The body of the loop over the transactions. *)
Definition tx_row (issuer_sym issuer_name : string) (tx : element) : raw_tx :=
  let code := or_empty_strip
                (findtext [Child "transactionCoding"; Child "transactionCode"]
                   (Some EmptyString) tx) in
  let shares := findtext [Child "transactionAmounts"; Child "transactionShares";
                          Child "value"] None tx in
  let price := findtext [Child "transactionAmounts"; Child "transactionPricePerShare";
                         Child "value"] None tx in
  let date := findtext [Child "transactionDate"; Child "value"] None tx in
  let direct := findtext [Child "ownershipNature"; Child "directOrIndirectOwnership";
                          Child "value"] None tx in
  {| r_issuerSymbol := issuer_sym;
     r_issuerName := issuer_name;
     r_transactionCode := code;
     r_shares := to_float shares;
     r_price := to_float price;
     r_date := date;
     r_ownership := direct |}.

(** [parse_form4_xml] on the parsed tree.  The namespace map [ns] binds
    the prefix [ns] only, which no path uses, so both branches of [gx]
    are [root.findall(path)]. *)
Definition parse_form4_tree (root : element) : form4 :=
  let issuer_sym := or_empty_strip
                      (findtext [Desc "issuerTradingSymbol"] (Some EmptyString) root) in
  let issuer_name := or_empty_strip
                       (findtext [Desc "issuerName"] (Some EmptyString) root) in
  let tx_rows := map (tx_row issuer_sym issuer_name)
                   (findall [Desc TABLE; Child TRANSACTION] root) in
  {| p_issuerSymbol := issuer_sym;
     p_issuerName := issuer_name;
     p_transactions := tx_rows |}.

(** [ET.fromstring] *)
Variable fromstring : string -> result element.

Definition parse_form4_xml (xml_bytes : string) : result form4 :=
  do root <- fromstring xml_bytes;
  Ok (parse_form4_tree root).

End Form4.

(** *** The transaction elements of a document *)

Definition all_elements (root : element) : list element := root :: descendants root.

(** The [nonDerivativeTransaction] elements of a document, in document order. *)
Definition transaction_elements (root : element) : list element :=
  List.filter (has_tag TRANSACTION) (all_elements root).

Definition no_transaction_child (e : element) : bool :=
  match children_with TRANSACTION e with [] => true | _ :: _ => false end.

(** The shape the Form 4 schema gives a document, as far as the parser
    depends on it: the root is not itself a transaction, and a transaction
    element only ever sits directly inside a [nonDerivativeTable] below the
    root. *)
Definition transactions_in_tables (root : element) : bool :=
  negb (has_tag TRANSACTION root)
  && no_transaction_child root
  && forallb (fun e => has_tag TABLE e || no_transaction_child e) (descendants root).

(** ** Locating and summarising the filings *)

(** A row of the transactions table after the clean-up: the numeric
    columns are float64 (NaN where the parser had [None]); the date is a
    timestamp in nanoseconds, [None] standing for NaT. *)
Record tx : Type := mk_tx {
  issuerSymbol : string;
  issuerName : string;
  transactionCode : string;
  shares : float;
  price : float;
  date : option Z;
  ownership : option string
}.

(** [pd.to_numeric(col, errors="coerce")] on a column of floats and [None]. *)
Definition to_numeric (x : option float) : float :=
  match x with Some v => v | None => PrimFloat.nan end.

Section Summary.

Variable server : string -> result string.
(** [json.loads(body.decode("utf-8"))] *)
Variable json_loads : string -> result json.
(** [int(s)]: [None] stands for its [ValueError]. *)
Variable py_int : string -> option Z.
Variable py_float : string -> option float.
Variable fromstring : string -> result element.
(** [pd.to_datetime(col, errors="coerce")], cell by cell. *)
Variable to_datetime : option string -> option Z.

Definition _dir_index_json_url (cik accession_no_dashes : string) : result string :=
  match py_int cik with
  | Some n =>
      Ok (SEC_BASE +:+ "/Archives/edgar/data/" +:+ Str.of_Z n +:+ "/"
            +:+ accession_no_dashes +:+ "/index.json")
  | None => Raise ValueError
  end.

Definition find_form4_xml_url (cik : string) (filename : option string)
  : result (option string) :=
  do ad <- _extract_accession_and_dirpath filename;
  let '(accession, dirpath) := ad in
  do idx_url <- _dir_index_json_url cik accession;
  match (do raw <- _http_get server idx_url; json_loads raw) with
  | Raise _ => Ok None
  | Ok data =>
      do directory <- json_get data "directory" (JObj ∅);
      do items <- json_get directory "item" (JArr []);
      do fs <- json_iter items;
      scan_items dirpath fs
  end.

(** [bool(xml_url)] *)
Definition truthy (u : option string) : bool :=
  match u with
  | None | Some EmptyString => false
  | Some (String _ _) => true
  end.

(** The [for _, r in filings_df.iterrows()] loop with its accumulators. *)
Fixpoint summary_loop (filings : list filing) (rows : list raw_tx) (count max_filings : Z)
  : result (list raw_tx) :=
  match filings with
  | [] => Ok rows
  | r :: rest =>
      if count >=? max_filings then Ok rows
      else
        let cik := Str.zfill 10 (py_str (f_CIK r)) in
        let filename := f_Filename r in
        do xml_url <- find_form4_xml_url cik filename;
        if negb (truthy xml_url) then summary_loop rest rows count max_filings
        else
          match (do xml_bytes <- _http_get server (py_str xml_url);
                 parse_form4_xml py_float fromstring xml_bytes) with
          | Ok parsed =>
              summary_loop rest (rows ++ p_transactions parsed) (count + 1) max_filings
          | Raise _ => summary_loop rest rows count max_filings
          end
  end.

Definition clean (r : raw_tx) : tx :=
  {| issuerSymbol := r_issuerSymbol r;
     issuerName := r_issuerName r;
     transactionCode := r_transactionCode r;
     shares := to_numeric (r_shares r);
     price := to_numeric (r_price r);
     date := to_datetime (r_date r);
     ownership := r_ownership r |}.

Definition build_activity_summary (filings_df : list filing) (max_filings : Z)
  : result (list tx) :=
  do rows <- summary_loop filings_df [] 0 max_filings;
  match rows with
  | [] => Ok []
  | _ :: _ => Ok (map clean rows)
  end.

(** What becomes of one filing: an exception that leaves the loop, a
    filing passed over (its document not located, not fetched or not
    parsed), or a parsed document. *)
Definition outcome (r : filing) : result (option form4) :=
  do xml_url <- find_form4_xml_url (Str.zfill 10 (py_str (f_CIK r))) (f_Filename r);
  if negb (truthy xml_url) then Ok None
  else
    match (do xml_bytes <- _http_get server (py_str xml_url);
           parse_form4_xml py_float fromstring xml_bytes) with
    | Ok parsed => Ok (Some parsed)
    | Raise _ => Ok None
    end.

(** The documents parsed out of a list of filings, in order. *)
Definition parsed_documents (filings : list filing) : list form4 :=
  flat_map (fun r => match outcome r with Ok (Some p) => [p] | _ => [] end) filings.

(** The locator returns for the filing [r].  It is the only step of the
    loop whose exceptions are not caught. *)
Definition located (r : filing) : Prop :=
  exists u, find_form4_xml_url (Str.zfill 10 (py_str (f_CIK r))) (f_Filename r) = Ok u.

(** A filings frame of one row whose Filename names no accession. *)
Definition unparsable_filings : list filing :=
  [ mk_filing (Some "0000320193") (Some "Apple Inc.") (Some "4") (Some "20250102")
      (Some "edgar/data/320193/index.htm") (Some "2025-01-02") ]%string.

End Summary.

(** ** Aggregation by issuer *)

Local Open Scope float_scope.

(** A row and the frame [aggregate_by_issuer] returns. *)
Record agg_row : Type := mk_agg_row {
  a_issuerSymbol : string;
  nTransactions : Z;
  totalShares : float;
  buys : float;
  sells : float
}.

Record agg_frame : Type := mk_agg_frame {
  columns : list string;
  rows : list agg_row
}.

(** A row of the frame [pd.concat(..., axis=1)] builds, before [fillna]:
    a cell is missing ([None], NaN) where a series lacks the key. *)
Record wide_row : Type := mk_wide_row {
  w_key : string;
  w_n : option Z;
  w_total : float;
  w_buys : float;
  w_sells : float
}.

Module Groupby.

Definition notna (x : float) : bool := negb (PrimFloat.is_nan x).

(** One step of the grouped sum: missing values are skipped, the others
    are added with Kahan's compensation (a NaN compensation is reset). *)
Definition sum_step (st : float * float * nat) (val : float) : float * float * nat :=
  let '(sumx, compensation, nobs) := st in
  if notna val then
    let y := val - compensation in
    let t := sumx + y in
    let c := t - sumx - y in
    (t, (if PrimFloat.is_nan c then 0 else c), S nobs)
  else st.

(** [.sum(min_count=1)] of the values of one group: NaN unless at least
    one value is present. *)
Definition group_sum (vals : list float) : float :=
  let '(sumx, _, nobs) := fold_left sum_step vals (0, 0, O) in
  if (nobs <? 1)%nat then PrimFloat.nan else sumx.

(** [.count()] of the values of one group: the values that are present. *)
Definition group_count (vals : list float) : Z :=
  Z.of_nat (List.length (List.filter notna vals)).

(** The sorted group keys: insertion into a strictly increasing list. *)
Fixpoint insert_key (k : string) (ks : list string) : list string :=
  match ks with
  | [] => [k]
  | h :: rest =>
      match String.compare k h with
      | Lt => k :: ks
      | Eq => ks
      | Gt => h :: insert_key k rest
      end
  end.

Definition sorted_keys (ks : list string) : list string :=
  fold_right insert_key [] ks.

Definition in_group (k : string) (r : tx) : bool := String.eqb (issuerSymbol r) k.

Definition group_shares (k : string) (t : list tx) : list float :=
  map shares (List.filter (in_group k) t).

Definition group_keys (t : list tx) : list string :=
  sorted_keys (map issuerSymbol t).

(** [t.groupby("issuerSymbol")["shares"].sum(min_count=1)] *)
Definition sum_by_issuer (t : list tx) : list (string * float) :=
  map (fun k => (k, group_sum (group_shares k t))) (group_keys t).

(** [t.groupby("issuerSymbol")["shares"].count()] *)
Definition count_by_issuer (t : list tx) : list (string * Z) :=
  map (fun k => (k, group_count (group_shares k t))) (group_keys t).

End Groupby.

(** [transactions[transactions["transactionCode"] == code]] *)
Definition with_code (code : string) (t : list tx) : list tx :=
  List.filter (fun r => String.eqb (transactionCode r) code) t.

Fixpoint series_get {V : Type} (k : string) (s : list (string * V)) : option V :=
  match s with
  | [] => None
  | (k', v) :: rest => if String.eqb k' k then Some v else series_get k rest
  end.

(** The union of the indexes taken in order of first appearance. *)
Definition index_union (indexes : list (list string)) : list string :=
  fold_left (fun acc k => if existsb (String.eqb k) acc then acc else acc ++ [k])
    (concat indexes) [].

Definition float_cell (c : option float) : float :=
  match c with Some v => v | None => PrimFloat.nan end.

(** [pd.concat([n, total, buys, sells], axis=1)] *)
Definition concat_columns (n : list (string * Z)) (total buys sells : list (string * float))
  : list wide_row :=
  map (fun k => {| w_key := k;
                   w_n := series_get k n;
                   w_total := float_cell (series_get k total);
                   w_buys := float_cell (series_get k buys);
                   w_sells := float_cell (series_get k sells) |})
    (index_union [map fst n; map fst total; map fst buys; map fst sells]).

Definition fill0 (x : float) : float := if PrimFloat.is_nan x then 0 else x.

(** [.fillna(0)] *)
Definition fillna (w : wide_row) : agg_row :=
  {| a_issuerSymbol := w_key w;
     nTransactions := (match w_n w with Some c => c | None => 0%Z end);
     totalShares := fill0 (w_total w);
     buys := fill0 (w_buys w);
     sells := fill0 (w_sells w) |}.

(** [a] comes strictly before [b] under
    [sort_values(["nTransactions","totalShares"], ascending=False)]. *)
Definition before (a b : agg_row) : bool :=
  (nTransactions b <? nTransactions a)%Z
  || ((nTransactions a =? nTransactions b)%Z && (totalShares b <? totalShares a)).

(** The sort is stable: among rows equal on both keys the earlier stays
    first. *)
Fixpoint insert_row (x : agg_row) (sorted : list agg_row) : list agg_row :=
  match sorted with
  | [] => [x]
  | y :: rest => if before y x then y :: insert_row x rest else x :: sorted
  end.

Definition sort_values (l : list agg_row) : list agg_row :=
  fold_right insert_row [] l.

Definition agg_columns : list string :=
  ["issuerSymbol"; "nTransactions"; "totalShares"; "buys"; "sells"]%string.

Definition aggregate_rows (transactions : list tx) : list agg_row :=
  let buys := Groupby.sum_by_issuer (with_code "P" transactions) in
  let sells := Groupby.sum_by_issuer (with_code "S" transactions) in
  let total := Groupby.sum_by_issuer transactions in
  let n := Groupby.count_by_issuer transactions in
  sort_values (map fillna (concat_columns n total buys sells)).

Definition aggregate_by_issuer (transactions : list tx) : agg_frame :=
  match transactions with
  | [] => {| columns := agg_columns; rows := [] |}
  | _ :: _ =>
      (* reset_index: the index becomes the column issuerSymbol *)
      {| columns := "issuerSymbol"%string :: ["nTransactions"; "totalShares"; "buys"; "sells"]%string;
         rows := aggregate_rows transactions |}
  end.

Definition trade (sym code : string) (n : float) : tx :=
  mk_tx sym (sym +:+ " Inc.") code n 10 None (Some "D"%string).

(** ** The weekly baseline *)

Definition float_of_Z (n : Z) : float := PrimFloat.of_uint63 (Uint63.of_Z n).

Definition dated (d : string) (r : filing) : bool :=
  match f_date r with Some d' => String.eqb d' d | None => false end.

Definition has_filename (r : filing) : bool :=
  match f_Filename r with Some _ => true | None => false end.

Definition dates_of (w : list filing) : list string :=
  flat_map (fun r => match f_date r with Some d => [d] | None => [] end) w.

(** [w.groupby("date")["Filename"].count()]: per date that occurs, the
    rows of that date that have a Filename. *)
Definition filings_per_day (w : list filing) : list (string * Z) :=
  map (fun d => (d, Z.of_nat (List.length (List.filter has_filename (List.filter (dated d) w)))))
    (Groupby.sorted_keys (dates_of w)).

Definition Zsum (l : list Z) : Z := fold_right Z.add 0%Z l.

(** [float(counts.mean())]: the integer counts are summed in float64,
    which is exact below 2^53, and divided by their number. *)
Definition mean (counts : list Z) : float :=
  float_of_Z (Zsum counts) / float_of_Z (Z.of_nat (List.length counts)).

Definition weekly_baseline (transactions_week : list filing) : float :=
  match transactions_week with
  | [] => 0
  | _ :: _ =>
      let counts := filings_per_day transactions_week in
      match counts with
      | [] => 0
      | _ :: _ => mean (map snd counts)
      end
  end.

Definition filed (d fn : string) : filing :=
  mk_filing (Some "0000320193"%string) (Some "Apple Inc."%string) (Some "4"%string)
    (Some "20250102"%string) (Some fn) (Some d).

(** *** The rows of an issuer *)

(** The rows of one issuer, in the order of the table. *)
Definition rows_of (k : string) (t : list tx) : list tx :=
  List.filter (Groupby.in_group k) t.

(** The two columns of an aggregate row that no rounding touches. *)
Definition symbol_count (r : agg_row) : string * Z :=
  (a_issuerSymbol r, nTransactions r).

(** Three purchases of one issuer, and the same purchases in another
    order. *)
Definition fractional_trades : list tx :=
  [ trade "AAPL" "P" 3.5; trade "AAPL" "P" 1.7; trade "AAPL" "P" 6.6 ].

Definition fractional_trades_reordered : list tx :=
  [ trade "AAPL" "P" 3.5; trade "AAPL" "P" 6.6; trade "AAPL" "P" 1.7 ].

Definition interleaved : list tx :=
  [ trade "AAPL" "P" 100; trade "MSFT" "S" 50; trade "AAPL" "S" 30 ].

Definition interleaved_reordered : list tx :=
  [ trade "MSFT" "S" 50; trade "AAPL" "P" 100; trade "AAPL" "S" 30 ].

(** *** The aggregate row of an issuer *)

(** What the aggregate holds for the issuer [k] of a table. *)
Definition issuer_row (t : list tx) (k : string) : agg_row :=
  {| a_issuerSymbol := k;
     nTransactions := Groupby.group_count (map shares (rows_of k t));
     totalShares := fill0 (Groupby.group_sum (map shares (rows_of k t)));
     buys := fill0 (Groupby.group_sum (map shares (rows_of k (with_code "P" t))));
     sells := fill0 (Groupby.group_sum (map shares (rows_of k (with_code "S" t)))) |}.

(** One step of [index_union]. *)
Definition add_key (acc : list string) (k : string) : list string :=
  if existsb (String.eqb k) acc then acc else acc ++ [k].

(** *** Transactions without a share count *)

(** One AAPL purchase whose share count is missing: the parser found no
    number in the document, and the clean-up made it NaN. *)
Definition purchase_without_shares : list tx :=
  [ trade "AAPL" "P" PrimFloat.nan ].

(** *** Counted rows and distinct dates *)

Definition has_date (r : filing) : bool :=
  match f_date r with Some _ => true | None => false end.

(** The rows [groupby("date")["Filename"].count()] counts. *)
Definition counted (r : filing) : bool := has_date r && has_filename r.

(** The number of distinct dates in the [date] column. *)
Definition distinct_dates (w : list filing) : nat :=
  size (list_to_set (dates_of w) : gset string).

(** Whether the row [r] is counted under the date [d]. *)
Definition hit (r : filing) (d : string) : Z :=
  if dated d r && has_filename r then 1 else 0.

(** The count of the date [d] in [filings_per_day]. *)
Definition day_count (w : list filing) (d : string) : Z :=
  Z.of_nat (List.length (List.filter has_filename (List.filter (dated d) w))).

(** Two filings collected on the same day. *)
Definition one_busy_day : list filing :=
  [ filed "2025-01-02" "edgar/data/320193/0000320193-25-000123.txt";
    filed "2025-01-02" "edgar/data/1318605/0001318605-25-000044.txt" ].

(** ** The aggregation on shared objects

    A DataFrame or Series is an object in a store and a variable holds its
    address, so that a table passed to a function is the caller's table.
    Every pandas call of [aggregate_by_issuer] (boolean indexing, [groupby]
    with [sum] or [count], [rename], [pd.concat], [fillna], [sort_values],
    [reset_index], none of them with [inplace=True]) reads its operands and
    builds a new object. *)

Inductive pyobj : Type :=
  | OTable (t : list tx)
  | OFloats (s : list (string * float))
  | OCounts (s : list (string * Z))
  | OWide (w : list wide_row)
  | OIndexed (a : list agg_row)
  | OFrame (f : agg_frame).

Abbreviation loc := positive.
Abbreviation heap := (gmap loc pyobj).

Definition Py (A : Type) : Type := heap -> result (A * heap).

Definition ret {A : Type} (a : A) : Py A := fun h => Ok (a, h).

Definition bind {A B : Type} (m : Py A) (k : A -> Py B) : Py B :=
  fun h => match m h with
           | Ok (a, h') => k a h'
           | Raise e => Raise e
           end.

Notation "'py' x <- m ; k" := (bind m (fun x => k))
  (at level 10, x name, m at level 100, k at level 200).

Definition alloc (o : pyobj) : Py loc :=
  fun h => let l := fresh (dom h) in Ok (l, <[l := o]> h).

Definition load (l : loc) : Py pyobj :=
  fun h => match h !! l with
           | Some o => Ok (o, h)
           | None => Raise AttributeError
           end.

(** In-place update of an object, as an [inplace=True] call or an item
    assignment would do. *)
Definition store (l : loc) (o : pyobj) : Py unit :=
  fun h => Ok (tt, <[l := o]> h).

(** A call that reads one object and returns a new one. *)
Definition call1 (f : pyobj -> result pyobj) (l : loc) : Py loc :=
  py o <- load l;
  match f o with
  | Ok o' => alloc o'
  | Raise e => fun _ => Raise e
  end.

Module Pandas.

(** [df.empty] *)
Definition empty (l : loc) : Py bool :=
  py o <- load l;
  match o with
  | OTable t => ret (match t with [] => true | _ :: _ => false end)
  | _ => fun _ => Raise AttributeError
  end.

(** [df[df["transactionCode"] == code]] *)
Definition getitem_code (code : string) : loc -> Py loc :=
  call1 (fun o => match o with
                  | OTable t => Ok (OTable (with_code code t))
                  | _ => Raise TypeError
                  end).

(** [df.groupby("issuerSymbol")["shares"].sum(min_count=1)] *)
Definition groupby_sum : loc -> Py loc :=
  call1 (fun o => match o with
                  | OTable t => Ok (OFloats (Groupby.sum_by_issuer t))
                  | _ => Raise AttributeError
                  end).

(** [df.groupby("issuerSymbol")["shares"].count()] *)
Definition groupby_count : loc -> Py loc :=
  call1 (fun o => match o with
                  | OTable t => Ok (OCounts (Groupby.count_by_issuer t))
                  | _ => Raise AttributeError
                  end).

(** [s.rename(name)]: a new Series with the same index and values. *)
Definition rename : loc -> Py loc :=
  call1 (fun o => match o with
                  | OFloats s => Ok (OFloats s)
                  | OCounts s => Ok (OCounts s)
                  | _ => Raise AttributeError
                  end).

(** [pd.concat([n, total, buys, sells], axis=1)] *)
Definition concat (ln ltotal lbuys lsells : loc) : Py loc :=
  py n <- load ln;
  py total <- load ltotal;
  py buys <- load lbuys;
  py sells <- load lsells;
  match n, total, buys, sells with
  | OCounts n, OFloats total, OFloats buys, OFloats sells =>
      alloc (OWide (concat_columns n total buys sells))
  | _, _, _, _ => fun _ => Raise TypeError
  end.

(** [df.fillna(0)] *)
Definition fillna0 : loc -> Py loc :=
  call1 (fun o => match o with
                  | OWide w => Ok (OIndexed (map fillna w))
                  | _ => Raise AttributeError
                  end).

(** [df.sort_values(["nTransactions","totalShares"], ascending=False)] *)
Definition sort : loc -> Py loc :=
  call1 (fun o => match o with
                  | OIndexed a => Ok (OIndexed (sort_values a))
                  | _ => Raise AttributeError
                  end).

(** [df.reset_index()] *)
Definition reset_index : loc -> Py loc :=
  call1 (fun o => match o with
                  | OIndexed a =>
                      Ok (OFrame {| columns := "issuerSymbol"%string
                                          :: ["nTransactions"; "totalShares"; "buys"; "sells"]%string;
                                    rows := a |})
                  | _ => Raise AttributeError
                  end).

(** [pd.DataFrame(columns=cols)] *)
Definition DataFrame (cols : list string) : Py loc :=
  alloc (OFrame {| columns := cols; rows := [] |}).

End Pandas.

(** [aggregate_by_issuer], statement by statement, on the address of the
    caller's table. *)
Definition aggregate_by_issuer_at (transactions : loc) : Py loc :=
  py e <- Pandas.empty transactions;
  if (e : bool) then Pandas.DataFrame agg_columns
  else
    py p <- Pandas.getitem_code "P" transactions;
    py buys <- Pandas.groupby_sum p;
    py s <- Pandas.getitem_code "S" transactions;
    py sells <- Pandas.groupby_sum s;
    py total <- Pandas.groupby_sum transactions;
    py n <- Pandas.groupby_count transactions;
    py n' <- Pandas.rename n;
    py total' <- Pandas.rename total;
    py buys' <- Pandas.rename buys;
    py sells' <- Pandas.rename sells;
    py wide <- Pandas.concat n' total' buys' sells';
    py filled <- Pandas.fillna0 wide;
    py sorted <- Pandas.sort filled;
    Pandas.reset_index sorted.

(** [m] run in [h] returns normally, keeps every object of [h] as it is,
    and ends in a result and store that satisfy [Q]. *)
Definition returns {A : Type} (m : Py A) (h : heap) (Q : A -> heap -> Prop) : Prop :=
  exists a h', m h = Ok (a, h') /\ h ⊆ h' /\ Q a h'.

(** ** A sample run *)

(** A server that answers every request with the sample index. *)
Definition index_server (url : string) : result string := Ok sample_idx.

Definition leaf (t x : string) : element := Element t (Some x) [].

Definition value (x : string) : element := Element "value" (Some x) [].

Definition sample_transaction (code n px day : string) : element :=
  Element TRANSACTION None
    [ Element "transactionDate" None [ value day ];
      Element "transactionCoding" None [ leaf "transactionFormType" "4"; leaf "transactionCode" code ];
      Element "transactionAmounts" None
        [ Element "transactionShares" None [ value n ];
          Element "transactionPricePerShare" None [ value px ] ];
      Element "ownershipNature" None
        [ Element "directOrIndirectOwnership" None [ value "D" ] ] ].

Definition sample_document : element :=
  Element "ownershipDocument" None
    [ leaf "documentType" "4";
      Element "issuer" None
        [ leaf "issuerCik" "0000320193"; leaf "issuerName" "Apple Inc.";
          leaf "issuerTradingSymbol" " AAPL " ];
      Element TABLE None
        [ sample_transaction "P" "100" "12.5" "2025-01-02";
          sample_transaction "S" "n/a" "12.5" "2025-01-03" ] ].

(** A reader of the few numerals the samples use. *)
Definition sample_float (s : string) : option float :=
  if String.eqb s "100" then Some 100
  else if String.eqb s "12.5" then Some 12.5
  else None.

Definition sample_fromstring (xml_bytes : string) : result element := Ok sample_document.

(** A server whose directory listings name one document, [form4.xml]. *)
Definition sample_listing : json :=
  JObj {[ "directory"%string :=
            JObj {[ "item"%string :=
                      JArr [ JObj {[ "name"%string := JStr "index.htm" ]};
                             JObj {[ "name"%string := JStr "form4.xml" ]} ] ]} ]}.

Definition sample_json_loads (body : string) : result json := Ok sample_listing.

Definition sample_int (s : string) : option Z :=
  if String.eqb s "0000320193" then Some 320193%Z
  else if String.eqb s "0001318605" then Some 1318605%Z
  else None.

Definition sample_to_datetime (x : option string) : option Z :=
  match x with
  | Some s =>
      if String.eqb s "2025-01-02" then Some 1735776000000000000%Z
      else if String.eqb s "2025-01-03" then Some 1735862400000000000%Z
      else None
  | None => None
  end.

Definition sample_filings : list filing :=
  list_form4_filings_for_range index_server 739253%Z 739253%Z.

Definition sample_summary : result (list tx) :=
  build_activity_summary index_server sample_json_loads sample_int sample_float
    sample_fromstring sample_to_datetime sample_filings 1%Z.

Definition sample_rows : list tx :=
  [ mk_tx "AAPL" "Apple Inc." "P" 100 12.5 (Some 1735776000000000000%Z) (Some "D"%string);
    mk_tx "AAPL" "Apple Inc." "S" PrimFloat.nan 12.5 (Some 1735862400000000000%Z)
      (Some "D"%string) ].

(** ** The report *)

(** [summary.head(1).to_dict(orient="records")[0] if not summary.empty
    else None]: the row the report names as the top issuer. *)
Definition top_row (summary : agg_frame) : option agg_row :=
  match rows summary with
  | [] => None
  | r :: _ => Some r
  end.

(** The record has a share count. *)
Definition present (r : tx) : bool := Groupby.notna (shares r).

(** [b] has no more transactions than [a]. *)
Definition by_count (a b : agg_row) : Prop := (nTransactions b <= nTransactions a)%Z.

(** Whether the record [r] is counted under the issuer [k]. *)
Definition tally (r : tx) (k : string) : Z :=
  if Groupby.in_group k r && present r then 1%Z else 0%Z.

(** ** The two spans *)

(** The dict [{"last24": ..., "week": ...}]. *)
Record spans : Type := mk_spans {
  last24 : list filing;
  week : list filing
}.

Section Spans.

Variable server : string -> result string.

(** [now] is the reading of the clock, [datetime.now(timezone.utc)]. *)
Definition collect_last24h_and_week (now : Date.datetime) : spans :=
  let today := now in
  let yesterday := (now - 1)%Z in
  let last_week_start := (now - 8)%Z in
  let last_week_end := (now - 1)%Z in
  let last24_df := list_form4_filings_for_range server yesterday today in
  let week_df := list_form4_filings_for_range server last_week_start last_week_end in
  {| last24 := last24_df; week := week_df |}.

End Spans.

(** ** Documents with a namespace

    ElementTree writes the tag of an element of the namespace [uri] as
    [{uri}local]. *)

Definition qualified (e : element) : bool := Str.startswith (tag e) "{".

Fixpoint qualify (uri : string) (e : element) : element :=
  match e with
  | Element t x cs => Element ("{" +:+ uri +:+ "}" +:+ t) x (map (qualify uri) cs)
  end.

(** The sample document, had it declared a default namespace. *)
Definition namespaced_document : element :=
  qualify "http://www.sec.gov/edgar/ownership" sample_document.

(** ** Strings of digits *)

(** Every character of [s] satisfies [p]. *)
Fixpoint all_chars (p : ascii -> bool) (s : string) : bool :=
  match s with
  | EmptyString => true
  | String c s' => p c && all_chars p s'
  end.

Definition all_digits (s : string) : bool := all_chars Str.is_digit s.

(** ** What the scan of a directory passes over *)

(** The item is a dict whose name, the empty string when it has none, is
    a string that does not look like a Form 4 document. *)
Definition passed_over (f : json) : Prop :=
  exists s, json_get f "name" (JStr EmptyString) = Ok (JStr s)
            /\ is_form4_name (Str.lower s) = false.

(** ** Rows and lines of the index *)

(** [sep.join(fields)] for a one-character [sep]. *)
Fixpoint join (sep : ascii) (fields : list string) : string :=
  match fields with
  | [] => EmptyString
  | f :: rest =>
      match rest with
      | [] => f
      | _ :: _ => f +:+ String sep (join sep rest)
      end
  end.

(** The cells of a row that are present, in the order of the columns. *)
Definition cells (r : idx_row) : list string :=
  flat_map (fun c => match c with Some s => [s] | None => [] end)
    [ir_CIK r; ir_Company_Name r; ir_Form_Type r; ir_Date_Filed r; ir_Filename r].

(** The line begins with five dashes. *)
Definition is_delimiter (line : string) : bool := Str.startswith line "-----".

(** ** The union of the days, in the words of the specification *)

(** The Form Type of the index row is '4' or '4/A'. *)
Definition form_type_4 (r : idx_row) : Prop :=
  ir_Form_Type r = Some "4"%string \/ ir_Form_Type r = Some "4/A"%string.

(** [kept] is [df] restricted to its rows of Form Type '4' or '4/A', in
    the order of [df]. *)
Inductive restricted : list idx_row -> list idx_row -> Prop :=
  | restricted_nil : restricted [] []
  | restricted_keep (r : idx_row) (df kept : list idx_row) :
      form_type_4 r -> restricted df kept -> restricted (r :: df) (r :: kept)
  | restricted_drop (r : idx_row) (df kept : list idx_row) :
      ~ form_type_4 r -> restricted df kept -> restricted (r :: df) kept.

(** The row [f] of the result is the index row [row] as collected on the
    day [d]: the columns of the index, the CIK filled with zeros to ten
    characters, and the day in the [date] column. *)
Definition collected (d : Date.datetime) (row : idx_row) (f : filing) : Prop :=
  f_CIK f = Some (Str.zfill 10 (py_str (ir_CIK row)))
  /\ f_Company_Name f = ir_Company_Name row
  /\ f_Form_Type f = ir_Form_Type row
  /\ f_Date_Filed f = ir_Date_Filed row
  /\ f_Filename f = ir_Filename row
  /\ f_date f = Some (Date.strftime_iso d).

(** What the day [d] gives to the union: the restricted rows of its index
    as they are collected, and nothing when the index is not fetched or
    not parsed. *)
Definition day_union (server : string -> result string) (d : Date.datetime)
    (rows : list filing) : Prop :=
  match fetch_daily_master_idx server d with
  | Ok df => exists kept, restricted df kept /\ Forall2 (collected d) kept rows
  | Raise _ => rows = []
  end.

(** ** The fields of a transaction, in the words of the specification *)

(** The first result of [f] along [l]. *)
Fixpoint first_some {A B : Type} (f : A -> option B) (l : list A) : option B :=
  match l with
  | [] => None
  | x :: l' =>
      match f x with
      | Some y => Some y
      | None => first_some f l'
      end
  end.

(** The first element, in document order, that is reached from [e] by
    going down through children with the tags of [path], one after the
    other. *)
Fixpoint first_at (path : list string) (e : element) : option element :=
  match path with
  | [] => Some e
  | t :: rest =>
      first_some (fun c => if has_tag t c then first_at rest c else None) (children e)
  end.

(** The text of an element, the empty string when it has none. *)
Definition text_of (e : element) : string :=
  match text e with Some s => s | None => EmptyString end.

(** The text at [path] below [e], when there is such an element. *)
Definition text_at (path : list string) (e : element) : option string :=
  option_map text_of (first_at path e).

(** The text of the first element below [root], in document order, with
    the tag [t], stripped; the empty string without such an element. *)
Definition first_text_below (t : string) (root : element) : string :=
  Str.strip (match List.find (has_tag t) (descendants root) with
             | Some x => text_of x
             | None => EmptyString
             end).

(** The record of the transaction element [tx] of a document with the
    issuer symbol [sym] and the issuer name [name]; [number] reads a
    float, [None] when the text is not a number. *)
Definition record_of (number : string -> option float) (sym name : string) (tx : element)
  : raw_tx :=
  {| r_issuerSymbol := sym;
     r_issuerName := name;
     r_transactionCode :=
       Str.strip (match text_at ["transactionCoding"; "transactionCode"]%string tx with
                  | Some s => s
                  | None => EmptyString
                  end);
     r_shares :=
       match text_at ["transactionAmounts"; "transactionShares"; "value"]%string tx with
       | Some s => number s
       | None => None
       end;
     r_price :=
       match text_at ["transactionAmounts"; "transactionPricePerShare"; "value"]%string tx with
       | Some s => number s
       | None => None
       end;
     r_date := text_at ["transactionDate"; "value"]%string tx;
     r_ownership :=
       text_at ["ownershipNature"; "directOrIndirectOwnership"; "value"]%string tx |}.

(** The local part of a tag: of [{uri}local] it is [local]. *)
Fixpoint after_brace (s : string) : string :=
  match s with
  | EmptyString => EmptyString
  | String c s' => if Ascii.eqb c "}"%char then s' else after_brace s'
  end.

Definition local_name (t : string) : string :=
  if Str.startswith t "{" then after_brace t else t.

(** No element of the document carries a namespace. *)
Definition without_namespace (root : element) : bool :=
  forallb (fun e => negb (qualified e)) (all_elements root).

(** The elements of a document that are [nonDerivativeTransaction]
    elements, with or without a namespace. *)
Definition transactions_by_local_name (root : element) : list element :=
  List.filter (fun e => String.eqb (local_name (tag e)) TRANSACTION) (all_elements root).

(** * Properties *)

Local Close Scope float_scope.

(** ** Strings and dates *)

Example splitlines_ex :
  Str.splitlines ("a|b" +:+ String (ascii_of_nat 13) (String (ascii_of_nat 10) "c")
                  +:+ String (ascii_of_nat 10) EmptyString)
  = ["a|b"; "c"]%string.
Proof. reflexivity. Qed.

Example split_ex : Str.split "|" "1|Foo Inc||x" = ["1"; "Foo Inc"; EmptyString; "x"]%string.
Proof. reflexivity. Qed.

Example zfill_ex : Str.zfill 10 "-42" = "-000000042"%string /\ Str.zfill 2 "320193" = "320193"%string.
Proof. split; reflexivity. Qed.

Example strip_ex : Str.strip "  AAPL  " = "AAPL"%string.
Proof. reflexivity. Qed.

Example ymd_epoch : Date.ymd 719163 = (1970, 1, 1).
Proof. reflexivity. Qed.

Example ymd_leap : Date.ymd 738945 = (2024, 2, 29) /\ Date.ymd 738946 = (2024, 3, 1).
Proof. split; reflexivity. Qed.

Example ymd_first : Date.ymd 1 = (1, 1, 1) /\ Date.ymd 730120 = (2000, 1, 1).
Proof. split; reflexivity. Qed.

Example strftime_ex :
  Date.strftime_iso 739252 = "2025-01-01"%string
  /\ Date.strftime_compact 739252 = "20250101"%string.
Proof. split; reflexivity. Qed.

(** ** The daily index *)

Example idx_url_ex :
  _idx_url_for_date 739252
  = "https://www.sec.gov/Archives/edgar/daily-index/2025/Q1/master.20250101.idx"%string.
Proof. reflexivity. Qed.

Example parse_sample :
  parse_master_idx sample_idx
  = Ok [ mk_idx_row (Some "320193") (Some "Apple Inc.") (Some "4") (Some "20250102")
           (Some "edgar/data/320193/0000320193-25-000123.txt");
         mk_idx_row (Some "789019") (Some "MICROSOFT CORP") (Some "10-K") (Some "20250102")
           (Some "edgar/data/789019/0000789019-25-000007.txt");
         mk_idx_row (Some "1318605") (Some "Tesla, Inc.") (Some "4/A") (Some "20250102")
           (Some "edgar/data/1318605/0001318605-25-000044.txt") ]%string.
Proof. reflexivity. Qed.

(** *** Row count of the parsed index *)

Section IndexRowCount.

Lemma header_fold_snoc (l : list string) (x : string) (st : nat * nat) :
  fold_left header_step (l ++ [x]) st = header_step (fold_left header_step l st) x.
Proof. now rewrite fold_left_app. Qed.

Lemma header_fold_index (l : list string) (i s : nat) :
  fst (fold_left header_step l (i, s)) = (i + List.length l)%nat.
Proof.
  revert i s; induction l as [|x l IH]; intros i s; simpl.
  - lia.
  - rewrite IH. lia.
Qed.

Lemma header_end_snoc (l : list string) (x : string) :
  header_end (l ++ [x])
  = if Str.startswith x "-----" then S (List.length l) else header_end l.
Proof.
  unfold header_end. rewrite header_fold_snoc.
  pose proof (header_fold_index l O O) as Hi.
  destruct (fold_left header_step l (O, O)) as [i s]. simpl in *. subst i.
  now destruct (Str.startswith x "-----").
Qed.

Lemma header_end_le (l : list string) : (header_end l <= List.length l)%nat.
Proof.
  induction l as [|x l IH] using rev_ind.
  - unfold header_end. simpl. lia.
  - rewrite header_end_snoc, length_app. simpl.
    destruct (Str.startswith x "-----"); lia.
Qed.

Lemma data_lines_count (lines : list string) :
  List.length (data_lines lines) = fold_left count_step lines O.
Proof.
  induction lines as [|x l IH] using rev_ind.
  - reflexivity.
  - rewrite fold_left_app. simpl. rewrite <- IH. clear IH.
    unfold data_lines, count_step. rewrite header_end_snoc.
    destruct (Str.startswith x "-----").
    + rewrite skipn_all2; [reflexivity|]. rewrite length_app. simpl. lia.
    + pose proof (header_end_le l) as Hle.
      rewrite skipn_app.
      replace (header_end l - List.length l)%nat with O by lia.
      simpl. rewrite List.filter_app, length_app. simpl.
      destruct (has_pipe x); simpl; lia.
Qed.

(** When there are pipe-delimited lines after the header delimiter and the
    widest of them does not have exactly five fields, the parse raises
    ValueError: the frame constructor is given five column names. *)
Lemma parse_master_idx_raises (text : string) :
  pipe_lines_after_header text <> O ->
  widest_data_row text <> 5%nat ->
  parse_master_idx text = Raise ValueError.
Proof.
  unfold pipe_lines_after_header, widest_data_row, parse_master_idx.
  rewrite <- data_lines_count. intros Hn Hw.
  destruct (data_lines (Str.splitlines text)) as [|ln lns] eqn:E; [easy|].
  cbn [map]. unfold DataFrame_of_rows.
  destruct (Nat.eqb_spec (widest (Str.split "|" ln :: map (Str.split "|") lns))
              (List.length idx_columns)) as [Heq|Hne]; [|reflexivity].
  exfalso. apply Hw. exact Heq.
Qed.

End IndexRowCount.

(** C3, as stated, fails: the index text consisting of a dashed line and the
    line "320193|Apple Inc." has one pipe-delimited line after the header
    delimiter, and its parse produces no DataFrame at all: the constructor
    raises ValueError (5 columns passed, the data had 2). *)
Lemma parse_master_idx_two_fields_raises :
  pipe_lines_after_header two_field_idx = 1%nat
  /\ parse_master_idx two_field_idx = Raise ValueError
  /\ ~ (exists df, parse_master_idx two_field_idx = Ok df
                   /\ List.length df = pipe_lines_after_header two_field_idx).
Proof.
  split; [reflexivity|]. split; [reflexivity|].
  intros [df [H _]]. vm_compute in H. discriminate.
Qed.

Lemma parse_master_idx_raises_witness :
  parse_master_idx two_field_idx = Raise ValueError.
Proof.
  apply (parse_master_idx_raises two_field_idx); vm_compute; intros H; discriminate H.
Defined.

(** C3 (amended): whenever the pipe-delimited lines after the last line
    beginning with five dashes (all lines, when there is none) are absent,
    or the widest of them has exactly five fields, the parse returns a
    DataFrame with exactly as many rows as there are such lines. *)
Theorem parse_master_idx_row_count (text : string) :
  pipe_lines_after_header text = O \/ widest_data_row text = 5%nat ->
  exists df, parse_master_idx text = Ok df
             /\ List.length df = pipe_lines_after_header text.
Proof.
  unfold pipe_lines_after_header, widest_data_row, parse_master_idx.
  rewrite <- data_lines_count.
  destruct (data_lines (Str.splitlines text)) as [|ln lns] eqn:E.
  - intros _. exists []. split; reflexivity.
  - intros [H|H]; [simpl in H; discriminate H|].
    cbn [map] in *. unfold DataFrame_of_rows. rewrite H. simpl.
    eexists. split; [reflexivity|]. simpl. now rewrite !length_map.
Qed.

Lemma parse_master_idx_row_count_witness :
  exists df, parse_master_idx sample_idx = Ok df
             /\ List.length df = pipe_lines_after_header sample_idx.
Proof.
  apply (parse_master_idx_row_count sample_idx). right. vm_compute. reflexivity.
Defined.

(** ** The date-range collector *)

Section Collector.

Variable server : string -> result string.

(** Inside this section the functions of the collector are the ones of
    this server. *)
Local Abbreviation fetch_daily_master_idx := (fetch_daily_master_idx server).
Local Abbreviation collect_step := (collect_step server).
Local Abbreviation list_form4_filings_for_range := (list_form4_filings_for_range server).
Local Abbreviation day_rows := (day_rows server).

Lemma dates_from_seqZ (fuel : nat) (cur end_dt : Z) :
  (Z.to_nat (end_dt - cur + 1) <= fuel)%nat ->
  dates_from fuel cur end_dt = seqZ cur (end_dt - cur + 1).
Proof.
  revert cur; induction fuel as [|fuel IH]; intros cur Hf; simpl.
  - rewrite seqZ_nil; [reflexivity | lia].
  - destruct (Z.leb_spec cur end_dt) as [Hle|Hgt].
    + rewrite seqZ_cons by lia. f_equal.
      rewrite IH by lia. f_equal. lia.
    + rewrite seqZ_nil; [reflexivity | lia].
Qed.

(** The loop stops on its own condition: more fuel changes nothing. *)
Lemma date_list_seqZ (start_dt end_dt : Z) :
  date_list start_dt end_dt = seqZ start_dt (end_dt - start_dt + 1).
Proof. unfold date_list. now apply dates_from_seqZ. Qed.

Lemma collect_step_concat (frames : list (list filing)) (d : Z) :
  map normalize_cik (concat (collect_step frames d))
  = map normalize_cik (concat frames) ++ day_rows d.
Proof.
  unfold collect_step, day_rows.
  destruct (fetch_daily_master_idx d) as [df|e].
  - destruct df as [|r df]; [now rewrite app_nil_r|].
    rewrite concat_app, map_app. simpl. now rewrite app_nil_r.
  - now rewrite app_nil_r.
Qed.

Lemma collect_fold_concat (dates : list Z) (frames : list (list filing)) :
  map normalize_cik (concat (fold_left collect_step dates frames))
  = map normalize_cik (concat frames) ++ flat_map day_rows dates.
Proof.
  revert frames; induction dates as [|d dates IH]; intros frames; simpl.
  - now rewrite app_nil_r.
  - rewrite IH, collect_step_concat. now rewrite <- app_assoc.
Qed.

Lemma list_form4_flat_map (start_dt end_dt : Z) :
  list_form4_filings_for_range start_dt end_dt
  = flat_map day_rows (seqZ start_dt (end_dt - start_dt + 1)).
Proof.
  unfold list_form4_filings_for_range. rewrite date_list_seqZ.
  pose proof (collect_fold_concat (seqZ start_dt (end_dt - start_dt + 1)) []) as H.
  simpl in H. rewrite <- H.
  now destruct (fold_left collect_step (seqZ start_dt (end_dt - start_dt + 1)) []).
Qed.

Lemma is_form4_type (r : idx_row) :
  is_form4 r = true ->
  ir_Form_Type r = Some "4"%string \/ ir_Form_Type r = Some "4/A"%string.
Proof.
  unfold is_form4. destruct (ir_Form_Type r) as [t|]; [|discriminate].
  intros H. apply orb_true_iff in H as [H|H]; apply String.eqb_eq in H; subst; auto.
Qed.

Lemma in_day_rows (d : Z) (f : filing) :
  In f (day_rows d) <->
  exists df row, fetch_daily_master_idx d = Ok df /\ In row df
                 /\ is_form4 row = true /\ f = normalize_cik (stamp d row).
Proof.
  unfold day_rows. destruct (fetch_daily_master_idx d) as [df|e].
  - rewrite map_map, in_map_iff. split.
    + intros [row [<- Hin]]. apply filter_In in Hin as [Hin Hf]. eauto 6.
    + intros (df' & row & [= <-] & Hin & Hf & ->).
      exists row. split; [reflexivity|]. now apply filter_In.
  - split; [intros []|]. intros (df & row & H & _). discriminate.
Qed.

Lemma is_form4_iff (r : idx_row) : is_form4 r = true <-> form_type_4 r.
Proof.
  split; [apply is_form4_type|]. unfold form_type_4, is_form4.
  intros [H|H]; rewrite H; reflexivity.
Qed.

(** The filter of the collector keeps the rows of Form Type '4' or '4/A'
    and no other, in their order. *)
Lemma restricted_filter (df : list idx_row) : restricted df (List.filter is_form4 df).
Proof.
  induction df as [|r df IH]; [constructor|]. cbn [List.filter].
  destruct (is_form4 r) eqn:E.
  - apply restricted_keep; [now apply is_form4_iff | exact IH].
  - apply restricted_drop; [|exact IH].
    intros H. apply is_form4_iff in H. congruence.
Qed.

Lemma collected_stamp (d : Z) (row : idx_row) : collected d row (normalize_cik (stamp d row)).
Proof. repeat split. Qed.

Lemma collected_rows (d : Z) (kept : list idx_row) :
  Forall2 (collected d) kept (map normalize_cik (map (stamp d) kept)).
Proof.
  induction kept as [|row kept IH]; [constructor|].
  cbn [map]. constructor; [apply collected_stamp | exact IH].
Qed.

Lemma day_union_day_rows (d : Z) : day_union server d (day_rows d).
Proof.
  unfold day_union, day_rows. destruct (fetch_daily_master_idx d) as [df|e]; [|reflexivity].
  exists (List.filter is_form4 df). split; [apply restricted_filter | apply collected_rows].
Qed.

Lemma day_union_days (days : list Z) : Forall2 (day_union server) days (map day_rows days).
Proof.
  induction days as [|d days IH]; [constructor|].
  cbn [map]. constructor; [apply day_union_day_rows | exact IH].
Qed.

(** C7: for [start_dt <= end_dt] the collector returns the union of the
    days: the concatenation, in ascending date order, of what each day
    gives, which is the rows of the day's index restricted to Form Type
    '4' or '4/A', each with the columns of its index row and the day as
    [date], and nothing for a day whose index is not fetched or parsed.
    Every row of the result has Form Type '4' or '4/A' and is such a row
    of a day of the range, with that day as its [date]; and no row of Form
    Type '4' or '4/A' of a day whose index was fetched and parsed is left
    out. *)
Theorem list_form4_filings_for_range_union (start_dt end_dt : Z) :
  start_dt <= end_dt ->
  let out := list_form4_filings_for_range start_dt end_dt in
  out = flat_map day_rows (seqZ start_dt (end_dt - start_dt + 1))
  /\ (exists per_day,
        out = concat per_day
        /\ Forall2 (day_union server) (seqZ start_dt (end_dt - start_dt + 1)) per_day)
  /\ Forall (fun f => f_Form_Type f = Some "4"%string
                      \/ f_Form_Type f = Some "4/A"%string) out
  /\ (forall f, In f out ->
        exists d df row,
          start_dt <= d <= end_dt /\ fetch_daily_master_idx d = Ok df
          /\ In row df /\ form_type_4 row /\ collected d row f)
  /\ (forall d df row,
        start_dt <= d <= end_dt -> fetch_daily_master_idx d = Ok df ->
        In row df -> form_type_4 row ->
        exists f, In f out /\ collected d row f).
Proof.
  intros Hle out. subst out. rewrite list_form4_flat_map.
  split; [reflexivity|]. split; [|split; [|split]].
  - exists (map day_rows (seqZ start_dt (end_dt - start_dt + 1))).
    split; [apply flat_map_concat_map | apply day_union_days].
  - apply List.Forall_forall. intros f Hin.
    apply in_flat_map in Hin as (d & _ & Hin).
    apply in_day_rows in Hin as (df & row & _ & _ & Hf & ->).
    simpl. now apply is_form4_type.
  - intros f Hin. apply in_flat_map in Hin as (d & Hd & Hin).
    apply list_elem_of_In, elem_of_seqZ in Hd.
    apply in_day_rows in Hin as (df & row & Hfetch & Hrow & Hf & ->).
    exists d, df, row. split; [lia|]. split; [exact Hfetch|]. split; [exact Hrow|].
    split; [now apply is_form4_iff | apply collected_stamp].
  - intros d df row Hd Hfetch Hrow Hf.
    exists (normalize_cik (stamp d row)). split; [|apply collected_stamp].
    apply in_flat_map. exists d. split.
    + apply list_elem_of_In, elem_of_seqZ. lia.
    + apply in_day_rows. exists df, row. split; [exact Hfetch|]. split; [exact Hrow|].
      split; [now apply is_form4_iff | reflexivity].
Qed.

End Collector.

(** ** The document locator *)

Example extract_ex :
  _extract_accession_and_dirpath (Some "edgar/data/320193/0000320193-25-000123.txt"%string)
  = Ok ("000032019325000123",
        "https://www.sec.gov/Archives/edgar/data/320193/000032019325000123")%string.
Proof. reflexivity. Qed.

Example extract_loose_ex :
  _extract_accession_and_dirpath (Some "x/edgar/data/7/12-3.txt"%string)
  = Ok ("123", "https://www.sec.gov/Archives/edgar/data/7/123")%string.
Proof. reflexivity. Qed.

Example extract_fail_ex :
  _extract_accession_and_dirpath (Some "edgar/data/320193/index.htm"%string)
  = Raise ValueError.
Proof. reflexivity. Qed.

(** ** The Form 4 document *)

Lemma element_nested_ind (P : element -> Prop) :
  (forall t x cs, Forall P cs -> P (Element t x cs)) -> forall e, P e.
Proof.
  intros H. fix IH 1. intros [t x cs]. apply H.
  induction cs as [|c cs IHcs]; constructor; [apply IH | exact IHcs].
Qed.

Section TransactionElements.

Local Abbreviation below := (flat_map (fun c => c :: descendants c)).
Local Abbreviation is_tx := (has_tag TRANSACTION).
Local Abbreviation tx_children := (children_with TRANSACTION).

Lemma descendants_unfold (e : element) : descendants e = below (children e).
Proof. now destruct e. Qed.

(** Every transaction element below [e] is a child of [e] or of an
    element below [e], and is counted once. *)
Lemma transactions_below (e : element) :
  Permutation (List.filter is_tx (descendants e))
              (flat_map tx_children (e :: descendants e)).
Proof.
  induction e as [t x cs IH] using element_nested_ind.
  rewrite descendants_unfold. cbn [flat_map children].
  unfold children_with at 1. cbn [children].
  induction IH as [|c cs Hc _ IHcs]; [constructor|].
  cbn [flat_map]. rewrite !List.filter_app, !flat_map_app.
  rewrite IHcs, <- Hc. cbn [List.filter].
  destruct (is_tx c); cbn [app].
  - constructor. apply Permutation_app_swap_app.
  - apply Permutation_app_swap_app.
Qed.

Lemma flat_map_filter_nil {A B : Type} (f : A -> list B) (p : A -> bool) (l : list A) :
  (forall a, In a l -> p a = false -> f a = []) ->
  flat_map f (List.filter p l) = flat_map f l.
Proof.
  induction l as [|a l IH]; intros H; [reflexivity|]. simpl.
  rewrite <- IH by (intros b Hb; apply H; now right).
  destruct (p a) eqn:E; [reflexivity|].
  rewrite (H a) by (auto; now left). reflexivity.
Qed.

Lemma findall_transactions (root : element) :
  findall [Desc TABLE; Child TRANSACTION] root
  = flat_map tx_children (List.filter (has_tag TABLE) (descendants root)).
Proof. unfold findall. simpl. now rewrite app_nil_r. Qed.

Lemma findall_finds_all (root : element) :
  transactions_in_tables root = true ->
  Permutation (findall [Desc TABLE; Child TRANSACTION] root)
              (transaction_elements root).
Proof.
  unfold transactions_in_tables. intros H.
  apply andb_true_iff in H as [H Hdesc]. apply andb_true_iff in H as [Hroot Hkids].
  apply negb_true_iff in Hroot.
  rewrite findall_transactions. unfold transaction_elements, all_elements.
  cbn [List.filter]. rewrite Hroot.
  rewrite transactions_below. cbn [flat_map].
  unfold no_transaction_child in Hkids.
  destruct (tx_children root) as [|? ?]; [|discriminate]. cbn [app].
  rewrite flat_map_filter_nil; [reflexivity|].
  intros e He Ht. rewrite forallb_forall in Hdesc. specialize (Hdesc e He).
  rewrite Ht in Hdesc. simpl in Hdesc. unfold no_transaction_child in Hdesc.
  now destruct (tx_children e).
Qed.

End TransactionElements.

Section Form4Rows.

Variable py_float : string -> option float.
Variable fromstring : string -> result element.

(** The elements that a path of child steps selects from a context. *)
Local Abbreviation matches :=
  (fun (path : list string) (context : list element) =>
     fold_left (fun c st => select st c) (map Child path) context).

Lemma matches_app (path : list string) (l1 l2 : list element) :
  matches path (l1 ++ l2) = matches path l1 ++ matches path l2.
Proof.
  revert l1 l2. induction path as [|t path IH]; intros l1 l2; [reflexivity|].
  cbn [map fold_left select]. rewrite flat_map_app. apply IH.
Qed.

Lemma first_some_app {A B : Type} (f : A -> option B) (l1 l2 : list A) :
  first_some f (l1 ++ l2)
  = match first_some f l1 with Some y => Some y | None => first_some f l2 end.
Proof.
  induction l1 as [|x l1 IH]; [reflexivity|]. cbn [app first_some].
  destruct (f x); [reflexivity | exact IH].
Qed.

Lemma first_some_filter {A B : Type} (p : A -> bool) (f : A -> option B) (l : list A) :
  first_some f (List.filter p l) = first_some (fun x => if p x then f x else None) l.
Proof.
  induction l as [|x l IH]; [reflexivity|]. cbn [List.filter first_some].
  destruct (p x); cbn [first_some]; now rewrite IH.
Qed.

Lemma hd_error_app {A : Type} (l1 l2 : list A) :
  hd_error (l1 ++ l2) = match hd_error l1 with Some x => Some x | None => hd_error l2 end.
Proof. now destruct l1. Qed.

(** The first element that a path selects is the first one reached by
    going down from the context in document order. *)
Lemma hd_matches (path : list string) :
  forall context, hd_error (matches path context) = first_some (first_at path) context.
Proof.
  induction path as [|t path IH]; intros context.
  - cbn [map fold_left first_at]. now destruct context.
  - induction context as [|e context IHc]; [cbn; now rewrite IH|].
    change (e :: context) with ([e] ++ context).
    rewrite matches_app, hd_error_app, IHc. cbn [app first_some].
    assert (hd_error (matches (t :: path) [e]) = first_at (t :: path) e) as ->; [|reflexivity].
    cbn [map fold_left select flat_map first_at]. rewrite app_nil_r, IH.
    unfold children_with. apply first_some_filter.
Qed.

Lemma findtext_children (path : list string) (default : option string) (e : element) :
  findtext (map Child path) default e
  = match text_at path e with Some s => Some s | None => default end.
Proof.
  unfold findtext, findall, text_at.
  pose proof (hd_matches path [e]) as H. cbn [first_some] in H.
  destruct (first_at path e) as [x|]; cbn [option_map];
    destruct (fold_left (fun c st => select st c) (map Child path) [e]) as [|y l];
    cbn [hd_error] in H; try discriminate H; [|reflexivity].
  injection H as ->. reflexivity.
Qed.

Lemma hd_error_filter {A : Type} (p : A -> bool) (l : list A) :
  hd_error (List.filter p l) = List.find p l.
Proof.
  induction l as [|x l IH]; [reflexivity|]. cbn [List.filter List.find].
  destruct (p x); [reflexivity | exact IH].
Qed.

Lemma findtext_below (t : string) (root : element) :
  or_empty_strip (findtext [Desc t] (Some EmptyString) root) = first_text_below t root.
Proof.
  unfold findtext, findall, first_text_below, or_empty_strip.
  cbn [fold_left select flat_map]. rewrite app_nil_r.
  rewrite <- hd_error_filter.
  destruct (List.filter (has_tag t) (descendants root)); reflexivity.
Qed.

(** The record that the loop builds for a transaction element holds the
    fields of that element. *)
Lemma tx_row_record (sym name : string) (tx : element) :
  tx_row py_float sym name tx = record_of py_float sym name tx.
Proof.
  unfold tx_row, record_of, to_float, or_empty_strip.
  rewrite (findtext_children ["transactionCoding"; "transactionCode"]%string).
  rewrite (findtext_children ["transactionAmounts"; "transactionShares"; "value"]%string).
  rewrite (findtext_children ["transactionAmounts"; "transactionPricePerShare"; "value"]%string).
  rewrite (findtext_children ["transactionDate"; "value"]%string).
  rewrite (findtext_children
             ["ownershipNature"; "directOrIndirectOwnership"; "value"]%string).
  f_equal;
    match goal with
    | |- context [text_at ?p tx] => destruct (text_at p tx); reflexivity
    end.
Qed.

(** Without namespaces the local name of a tag is the tag. *)
Lemma transactions_without_namespace (root : element) :
  without_namespace root = true ->
  transactions_by_local_name root = transaction_elements root.
Proof.
  unfold without_namespace, transactions_by_local_name, transaction_elements.
  induction (all_elements root) as [|e l IH]; intros H; [reflexivity|].
  cbn [forallb] in H. apply andb_true_iff in H as [He Hl].
  cbn [List.filter]. rewrite (IH Hl).
  unfold local_name, has_tag. unfold qualified in He. apply negb_true_iff in He.
  now rewrite He.
Qed.

(** For a document without namespaces in which every
    [nonDerivativeTransaction] sits in a [nonDerivativeTable],
    [parse_form4_xml] returns one record per transaction element: the
    issuer symbol and name are the stripped texts of the first
    [issuerTradingSymbol] and [issuerName] elements of the document, and
    the record of an element holds them with that element's own
    transaction code, share count, price, date and ownership; share count
    and price are the float read from the text, or [None] when there is no
    such element or its text is not a number. *)
Theorem parse_form4_xml_one_row_per_transaction (xml_bytes : string) (root : element) :
  fromstring xml_bytes = Ok root ->
  without_namespace root = true ->
  transactions_in_tables root = true ->
  exists p,
    parse_form4_xml py_float fromstring xml_bytes = Ok p
    /\ p_issuerSymbol p = first_text_below "issuerTradingSymbol" root
    /\ p_issuerName p = first_text_below "issuerName" root
    /\ Permutation (p_transactions p)
         (map (record_of py_float (p_issuerSymbol p) (p_issuerName p))
            (transactions_by_local_name root))
    /\ List.length (p_transactions p) = List.length (transactions_by_local_name root).
Proof.
  intros Hparse Hns Hshape. unfold parse_form4_xml. rewrite Hparse. cbn [rbind].
  exists (parse_form4_tree py_float root). split; [reflexivity|].
  unfold parse_form4_tree. cbn [p_issuerSymbol p_issuerName p_transactions].
  rewrite !findtext_below, (transactions_without_namespace root Hns).
  pose proof (findall_finds_all root Hshape) as Hperm.
  split; [reflexivity|]. split; [reflexivity|]. split.
  - rewrite (map_ext _ _ (tx_row_record _ _)). now apply Permutation_map.
  - rewrite length_map. now apply Permutation_length.
Qed.

(** C8 at its failing input, the sample document with a default
    namespace declared: the document has two [nonDerivativeTransaction]
    elements, and [parse_form4_xml] returns no transaction, with an empty
    issuer symbol and name.  The namespace map that the function builds
    from the root tag binds the prefix [ns], which none of its paths
    uses. *)
Theorem parse_form4_xml_loses_namespaced_transactions (xml_bytes : string) :
  List.length (transactions_by_local_name namespaced_document) = 2%nat
  /\ parse_form4_xml py_float (fun _ => Ok namespaced_document) xml_bytes
     = Ok {| p_issuerSymbol := EmptyString;
             p_issuerName := EmptyString;
             p_transactions := [] |}.
Proof. split; reflexivity. Qed.

End Form4Rows.

(** ** The summary loop *)

Section SummaryLoop.

Variable server : string -> result string.
Variable json_loads : string -> result json.
Variable py_int : string -> option Z.
Variable py_float : string -> option float.
Variable fromstring : string -> result element.
Variable to_datetime : option string -> option Z.

(** Inside this section the functions of the loop are the ones of this
    server and these library functions. *)
Local Abbreviation _dir_index_json_url := (_dir_index_json_url py_int).
Local Abbreviation find_form4_xml_url := (find_form4_xml_url server json_loads py_int).
Local Abbreviation summary_loop := (summary_loop server json_loads py_int py_float fromstring).
Local Abbreviation clean := (clean to_datetime).
Local Abbreviation build_activity_summary := (build_activity_summary server json_loads py_int py_float fromstring to_datetime).
Local Abbreviation outcome := (outcome server json_loads py_int py_float fromstring).
Local Abbreviation parsed_documents := (parsed_documents server json_loads py_int py_float fromstring).
Local Abbreviation located := (located server json_loads py_int).

Lemma summary_loop_cons (r : filing) (rest : list filing) (rows : list raw_tx)
    (count max_filings : Z) :
  summary_loop (r :: rest) rows count max_filings
  = if count >=? max_filings then Ok rows
    else match outcome r with
         | Raise e => Raise e
         | Ok None => summary_loop rest rows count max_filings
         | Ok (Some p) =>
             summary_loop rest (rows ++ p_transactions p) (count + 1) max_filings
         end.
Proof.
  cbn [summary_loop]. unfold outcome.
  destruct (count >=? max_filings); [reflexivity|].
  destruct (find_form4_xml_url _ _) as [u|e]; [|reflexivity]. cbn [rbind].
  destruct (negb (truthy u)); [reflexivity|].
  now destruct (do xml_bytes <- _http_get server (py_str u);
                parse_form4_xml py_float fromstring xml_bytes).
Qed.

Lemma summary_loop_rows (filings : list filing) :
  forall rows count max_filings out,
    summary_loop filings rows count max_filings = Ok out ->
    out = rows ++ flat_map p_transactions
                    (firstn (Z.to_nat (max_filings - count)) (parsed_documents filings)).
Proof.
  induction filings as [|r rest IH]; intros rows count max_filings out.
  - cbn. intros [= <-]. now rewrite firstn_nil, app_nil_r.
  - rewrite summary_loop_cons. destruct (Z.geb_spec count max_filings) as [Hge|Hlt].
    + intros [= <-]. replace (Z.to_nat (max_filings - count)) with O by lia.
      now rewrite app_nil_r.
    + unfold parsed_documents. cbn [flat_map]. fold (parsed_documents rest).
      destruct (outcome r) as [[p|]|e]; [| |discriminate].
      * intros H. apply IH in H. subst out.
        replace (Z.to_nat (max_filings - count))
          with (S (Z.to_nat (max_filings - (count + 1)))) by lia.
        cbn [app firstn flat_map]. now rewrite <- app_assoc.
      * intros H. now apply IH in H.
Qed.

(** C10: when [build_activity_summary] returns, its rows are the
    transactions of the first [max_filings] successfully parsed documents
    and of no other; a filing that is passed over leaves the result, and
    so the room under the limit, as it was. *)
Theorem build_activity_summary_limit (filings_df : list filing) (max_filings : Z)
    (df : list tx) :
  0 <= max_filings ->
  build_activity_summary filings_df max_filings = Ok df ->
  let docs := firstn (Z.to_nat max_filings) (parsed_documents filings_df) in
  df = map clean (flat_map p_transactions docs)
  /\ Z.of_nat (List.length docs) <= max_filings
  /\ (forall r, outcome r = Ok None ->
        build_activity_summary (r :: filings_df) max_filings
        = build_activity_summary filings_df max_filings).
Proof.
  intros Hmax Hrun docs. split; [|split].
  - unfold build_activity_summary in Hrun.
    destruct (summary_loop filings_df [] 0 max_filings) as [rows|e] eqn:E;
      [|discriminate].
    apply summary_loop_rows in E. cbn [app] in E.
    rewrite Z.sub_0_r in E. fold docs in E. rewrite <- E.
    cbn [rbind] in Hrun. destruct rows; now injection Hrun as <-.
  - subst docs. rewrite length_firstn. lia.
  - intros r Hr. unfold build_activity_summary. rewrite summary_loop_cons, Hr.
    destruct (Z.geb_spec 0 max_filings) as [Hge|Hlt]; [|reflexivity].
    assert (max_filings = 0) as -> by lia.
    destruct filings_df; reflexivity.
Qed.

Lemma located_outcome (r : filing) : located r -> exists o, outcome r = Ok o.
Proof.
  intros [u Hu]. unfold outcome. rewrite Hu. cbn [rbind].
  destruct (negb (truthy u)); [eauto|].
  destruct (do xml_bytes <- _http_get server (py_str u);
            parse_form4_xml py_float fromstring xml_bytes); eauto.
Qed.

Lemma summary_loop_returns (filings : list filing) :
  Forall located filings ->
  forall rows count max_filings,
    exists out, summary_loop filings rows count max_filings = Ok out.
Proof.
  induction 1 as [|r rest Hr _ IH]; intros rows count max_filings.
  - cbn. eauto.
  - rewrite summary_loop_cons. destruct (count >=? max_filings); [eauto|].
    destruct (located_outcome r Hr) as [[p|] ->]; apply IH.
Qed.

(** When the locator raises for none of the filings, the summary returns
    normally, whatever the fetches and the parses of the documents do: a
    document that is not fetched or not parsed is passed over. *)
Theorem build_activity_summary_returns (filings_df : list filing) (max_filings : Z) :
  Forall located filings_df ->
  exists df, build_activity_summary filings_df max_filings = Ok df.
Proof.
  intros H. unfold build_activity_summary.
  destruct (summary_loop_returns filings_df H [] 0 max_filings) as [rows ->].
  cbn [rbind]. destruct rows; eauto.
Qed.

(** C1 at its failing input: on a filings frame whose one row has the
    Filename "edgar/data/320193/index.htm", whatever the network answers,
    [build_activity_summary] does not return: the ValueError of
    [_extract_accession_and_dirpath] leaves [find_form4_xml_url] and the
    loop, both of which call it outside their [try]. *)
Theorem build_activity_summary_raises :
  build_activity_summary unparsable_filings 300 = Raise ValueError.
Proof. reflexivity. Qed.

End SummaryLoop.

Local Open Scope float_scope.

(** ** Aggregation by issuer *)

Example aggregate_ex :
  rows (aggregate_by_issuer
          [ trade "MSFT" "S" 50; trade "AAPL" "P" 100; trade "AAPL" "S" 30;
            trade "TSLA" "A" 7; trade "AAPL" "P" PrimFloat.nan; trade "MSFT" "P" 5 ])
  = [ mk_agg_row "AAPL" 2 130 100 30;
      mk_agg_row "MSFT" 2 55 5 50;
      mk_agg_row "TSLA" 1 7 0 0 ].
Proof. vm_compute. reflexivity. Qed.

(** Rows equal on both sort keys keep the order of the sorted index. *)
Example aggregate_ties_ex :
  map a_issuerSymbol
    (rows (aggregate_by_issuer [ trade "ZZ" "P" 1; trade "BB" "P" 1; trade "MM" "S" 1 ]))
  = ["BB"; "MM"; "ZZ"]%string.
Proof. vm_compute. reflexivity. Qed.

Example weekly_baseline_ex :
  weekly_baseline [ filed "2025-01-02" "a.txt"; filed "2025-01-03" "b.txt";
                    filed "2025-01-02" "c.txt" ] = 1.5.
Proof. vm_compute. reflexivity. Qed.

(** *** Sorted keys *)

Section Keys.

Import Groupby.

Local Abbreviation slt := String_as_OT.lt.

Lemma compare_Gt_lt (k h : string) : String.compare k h = Gt -> slt h k.
Proof.
  intros H. apply String_as_OT.cmp_lt. unfold String_as_OT.cmp.
  rewrite String_as_OT.cmp_antisym. unfold String_as_OT.cmp. now rewrite H.
Qed.

Lemma slt_irrefl (k : string) : ~ slt k k.
Proof. intros H. exact (String_as_OT.lt_not_eq _ _ H Logic.eq_refl). Qed.

Lemma in_insert_key (x k : string) (ks : list string) :
  In x (insert_key k ks) <-> x = k \/ In x ks.
Proof.
  induction ks as [|h rest IH]; simpl.
  - intuition.
  - destruct (String.compare k h) eqn:E; simpl.
    + apply String_as_OT.cmp_eq in E. subst. intuition.
    + intuition.
    + rewrite IH. intuition.
Qed.

Lemma insert_key_sorted (k : string) (ks : list string) :
  StronglySorted slt ks -> StronglySorted slt (insert_key k ks).
Proof.
  induction 1 as [|h rest Hs IH Hh]; simpl.
  - repeat constructor.
  - destruct (String.compare k h) eqn:E.
    + now constructor.
    + apply String_as_OT.cmp_lt in E. constructor; [now constructor|].
      constructor; [exact E|].
      eapply List.Forall_impl; [|exact Hh]. intros a Ha. simpl in Ha.
      eapply String_as_OT.lt_trans; eassumption.
    + apply compare_Gt_lt in E. constructor; [exact IH|].
      apply List.Forall_forall. intros a Ha. apply in_insert_key in Ha as [->|Ha]; [exact E|].
      rewrite List.Forall_forall in Hh. now apply Hh.
Qed.

Lemma sorted_keys_sorted (l : list string) : StronglySorted slt (sorted_keys l).
Proof.
  induction l as [|k l IH]; simpl; [constructor|]. now apply insert_key_sorted.
Qed.

Lemma in_sorted_keys (x : string) (l : list string) : In x (sorted_keys l) <-> In x l.
Proof.
  induction l as [|k l IH]; simpl; [reflexivity|].
  rewrite in_insert_key, IH. intuition.
Qed.

Lemma sorted_NoDup (l : list string) : StronglySorted slt l -> List.NoDup l.
Proof.
  induction 1 as [|h rest Hs IH Hh]; constructor; [|exact IH].
  intros Hin. rewrite List.Forall_forall in Hh. apply Hh in Hin.
  now apply slt_irrefl in Hin.
Qed.

Lemma sorted_keys_NoDup (l : list string) : List.NoDup (sorted_keys l).
Proof. apply sorted_NoDup, sorted_keys_sorted. Qed.

(** The sorted keys depend on the set of keys only. *)
Lemma sorted_keys_ext (l1 l2 : list string) :
  (forall x, In x l1 <-> In x l2) -> sorted_keys l1 = sorted_keys l2.
Proof.
  intros H. apply (StronglySorted_unique_strong slt).
  - intros x1 x2 _ _ H12 H21. exfalso.
    apply (slt_irrefl x1). eapply String_as_OT.lt_trans; eassumption.
  - apply sorted_keys_sorted.
  - apply sorted_keys_sorted.
  - apply Permutation.NoDup_Permutation; try apply sorted_keys_NoDup.
    intros x. rewrite !in_sorted_keys. apply H.
Qed.

Lemma sorted_keys_perm (l1 l2 : list string) :
  Permutation l1 l2 -> sorted_keys l1 = sorted_keys l2.
Proof.
  intros H. apply sorted_keys_ext. intros x. split; apply Permutation_in; [exact H|].
  now symmetry.
Qed.

End Keys.

(** *** Reordering the rows *)

Section Reorder.

Import Groupby.

Lemma filter_comm {A : Type} (p q : A -> bool) (l : list A) :
  List.filter p (List.filter q l) = List.filter q (List.filter p l).
Proof.
  induction l as [|a l IH]; [reflexivity|]. simpl.
  destruct (q a) eqn:Q, (p a) eqn:P; simpl; rewrite ?Q, ?P, IH; reflexivity.
Qed.

Lemma rows_of_with_code (c k : string) (t : list tx) :
  rows_of k (with_code c t) = with_code c (rows_of k t).
Proof. unfold rows_of, with_code. apply filter_comm. Qed.

Lemma in_rows_of (r : tx) (t : list tx) : In r t -> In r (rows_of (issuerSymbol r) t).
Proof.
  intros H. apply filter_In. split; [exact H|]. unfold in_group. apply String.eqb_refl.
Qed.

Lemma same_groups_in (t1 t2 : list tx) :
  (forall k, rows_of k t1 = rows_of k t2) -> forall r, In r t1 -> In r t2.
Proof.
  intros H r Hin. apply in_rows_of in Hin. rewrite H in Hin.
  now apply filter_In in Hin as [Hin _].
Qed.

Lemma group_keys_ext (t1 t2 : list tx) :
  (forall k, rows_of k t1 = rows_of k t2) -> group_keys t1 = group_keys t2.
Proof.
  intros H. apply sorted_keys_ext. intros x. rewrite !in_map_iff.
  split; intros [r [<- Hin]]; exists r; (split; [reflexivity|]).
  - eapply same_groups_in; [exact H | exact Hin].
  - eapply same_groups_in; [intros k; symmetry; apply H | exact Hin].
Qed.

Lemma sum_by_issuer_ext (t1 t2 : list tx) :
  (forall k, rows_of k t1 = rows_of k t2) -> sum_by_issuer t1 = sum_by_issuer t2.
Proof.
  intros H. unfold sum_by_issuer. rewrite (group_keys_ext t1 t2 H).
  apply map_ext. intros k. unfold group_shares. fold (rows_of k t1) (rows_of k t2).
  now rewrite H.
Qed.

Lemma count_by_issuer_ext (t1 t2 : list tx) :
  (forall k, rows_of k t1 = rows_of k t2) -> count_by_issuer t1 = count_by_issuer t2.
Proof.
  intros H. unfold count_by_issuer. rewrite (group_keys_ext t1 t2 H).
  apply map_ext. intros k. unfold group_shares. fold (rows_of k t1) (rows_of k t2).
  now rewrite H.
Qed.

Lemma same_groups_with_code (c : string) (t1 t2 : list tx) :
  (forall k, rows_of k t1 = rows_of k t2) ->
  forall k, rows_of k (with_code c t1) = rows_of k (with_code c t2).
Proof. intros H k. now rewrite !rows_of_with_code, H. Qed.

(** The aggregate is a function of the per-issuer row sequences. *)
Lemma aggregate_by_issuer_ext (t1 t2 : list tx) :
  (forall k, rows_of k t1 = rows_of k t2) ->
  aggregate_by_issuer t1 = aggregate_by_issuer t2.
Proof.
  intros H.
  assert (aggregate_rows t1 = aggregate_rows t2) as Hrows.
  { unfold aggregate_rows.
    rewrite (sum_by_issuer_ext _ _ (same_groups_with_code "P" t1 t2 H)).
    rewrite (sum_by_issuer_ext _ _ (same_groups_with_code "S" t1 t2 H)).
    now rewrite (sum_by_issuer_ext _ _ H), (count_by_issuer_ext _ _ H). }
  destruct t1 as [|r1 t1], t2 as [|r2 t2]; simpl.
  - reflexivity.
  - exfalso. apply (same_groups_in _ _ (fun k => eq_sym (H k)) r2). now left.
  - exfalso. apply (same_groups_in _ _ H r1). now left.
  - unfold aggregate_by_issuer. now rewrite Hrows.
Qed.

Lemma group_shares_perm (k : string) (t1 t2 : list tx) :
  Permutation t1 t2 -> Permutation (group_shares k t1) (group_shares k t2).
Proof.
  intros H. unfold group_shares. apply Permutation_map.
  induction H; simpl.
  - constructor.
  - destruct (in_group k x); [now constructor | assumption].
  - destruct (in_group k x), (in_group k y); try reflexivity. apply perm_swap.
  - etransitivity; eassumption.
Qed.

Lemma filter_perm {A : Type} (p : A -> bool) (l1 l2 : list A) :
  Permutation l1 l2 -> Permutation (List.filter p l1) (List.filter p l2).
Proof.
  induction 1; simpl.
  - constructor.
  - destruct (p x); [now constructor | assumption].
  - destruct (p x), (p y); try reflexivity. apply perm_swap.
  - etransitivity; eassumption.
Qed.

Lemma group_count_perm (v1 v2 : list float) :
  Permutation v1 v2 -> group_count v1 = group_count v2.
Proof.
  intros H. unfold group_count. f_equal.
  apply Permutation_length. now apply filter_perm.
Qed.

Lemma group_keys_perm (t1 t2 : list tx) :
  Permutation t1 t2 -> group_keys t1 = group_keys t2.
Proof. intros H. apply sorted_keys_perm. now apply Permutation_map. Qed.

(** The counts do not depend on the order of the rows. *)
Lemma count_by_issuer_perm (t1 t2 : list tx) :
  Permutation t1 t2 -> count_by_issuer t1 = count_by_issuer t2.
Proof.
  intros H. unfold count_by_issuer. rewrite (group_keys_perm _ _ H).
  apply map_ext. intros k. f_equal. apply group_count_perm. now apply group_shares_perm.
Qed.

Lemma sum_by_issuer_keys (t : list tx) : map fst (sum_by_issuer t) = group_keys t.
Proof. unfold sum_by_issuer. rewrite map_map. simpl. apply map_id. Qed.

Lemma count_by_issuer_keys (t : list tx) : map fst (count_by_issuer t) = group_keys t.
Proof. unfold count_by_issuer. rewrite map_map. simpl. apply map_id. Qed.

Lemma concat_columns_symbol_count n total buys sells :
  map symbol_count (map fillna (concat_columns n total buys sells))
  = map (fun k => (k, match series_get k n with Some c => c | None => 0%Z end))
      (index_union [map fst n; map fst total; map fst buys; map fst sells]).
Proof. unfold concat_columns. rewrite !map_map. reflexivity. Qed.

Lemma insert_row_perm (x : agg_row) (l : list agg_row) :
  Permutation (insert_row x l) (x :: l).
Proof.
  induction l as [|y l IH]; simpl; [reflexivity|].
  destruct (before y x); [|reflexivity].
  rewrite IH. apply perm_swap.
Qed.

Lemma sort_values_perm (l : list agg_row) : Permutation (sort_values l) l.
Proof.
  induction l as [|x l IH]; simpl; [constructor|].
  rewrite insert_row_perm. now constructor.
Qed.

Lemma aggregate_rows_symbol_count (t1 t2 : list tx) :
  Permutation t1 t2 ->
  Permutation (map symbol_count (aggregate_rows t1)) (map symbol_count (aggregate_rows t2)).
Proof.
  intros H. unfold aggregate_rows.
  rewrite !sort_values_perm, !concat_columns_symbol_count.
  rewrite !sum_by_issuer_keys, !count_by_issuer_keys.
  rewrite (count_by_issuer_perm _ _ H), (group_keys_perm _ _ H).
  rewrite (group_keys_perm (with_code "P" t1) (with_code "P" t2)) by now apply filter_perm.
  rewrite (group_keys_perm (with_code "S" t1) (with_code "S" t2)) by now apply filter_perm.
  reflexivity.
Qed.

End Reorder.

Example fractional_trades_sums :
  rows (aggregate_by_issuer fractional_trades)
  = [ mk_agg_row "AAPL" 3 11.8 11.8 0 ]
  /\ rows (aggregate_by_issuer fractional_trades_reordered)
     = [ mk_agg_row "AAPL" 3 11.799999999999999 11.799999999999999 0 ].
Proof. split; vm_compute; reflexivity. Qed.

(** The two totals do not depend on the compensation: plain left-to-right
    addition gives them as well. *)
Example plain_sum_order :
  fold_left PrimFloat.add [3.5; 1.7; 6.6] 0 = 11.8
  /\ fold_left PrimFloat.add [3.5; 6.6; 1.7] 0 = 11.799999999999999.
Proof. split; vm_compute; reflexivity. Qed.

(** C2, as stated, fails: the share counts are float64 and their sum is
    rounded at every step, so three AAPL purchases of 3.5, 1.7 and 6.6
    shares total 11.8, and the same three rows in the order 3.5, 6.6, 1.7
    total 11.799999999999999. *)
Lemma aggregate_by_issuer_order_dependent :
  Permutation fractional_trades fractional_trades_reordered
  /\ aggregate_by_issuer fractional_trades
     <> aggregate_by_issuer fractional_trades_reordered.
Proof.
  split.
  - unfold fractional_trades, fractional_trades_reordered. constructor. apply perm_swap.
  - intros H.
    apply (f_equal (fun f => match rows f with
                             | r :: _ => PrimFloat.eqb (totalShares r) 11.8
                             | [] => false
                             end)) in H.
    vm_compute in H. discriminate H.
Qed.

(** C2 (amended): under any permutation of the rows the result has the same
    columns and the same issuer symbols, each with the same nTransactions;
    and when the permutation keeps the rows of every issuer in their
    relative order, the whole result is the same, values and output order
    included. *)
Theorem aggregate_by_issuer_reorder (t1 t2 : list tx) :
  Permutation t1 t2 ->
  columns (aggregate_by_issuer t1) = columns (aggregate_by_issuer t2)
  /\ Permutation (map symbol_count (rows (aggregate_by_issuer t1)))
                 (map symbol_count (rows (aggregate_by_issuer t2)))
  /\ ((forall k, rows_of k t1 = rows_of k t2) ->
      aggregate_by_issuer t1 = aggregate_by_issuer t2).
Proof.
  intros H. split; [|split].
  - destruct t1, t2; reflexivity.
  - pose proof (aggregate_rows_symbol_count t1 t2 H) as Hrows.
    destruct t1 as [|r1 t1], t2 as [|r2 t2]; simpl.
    + constructor.
    + apply Permutation_nil in H. discriminate H.
    + symmetry in H. apply Permutation_nil in H. discriminate H.
    + exact Hrows.
  - apply aggregate_by_issuer_ext.
Qed.

Lemma interleaved_same_groups (k : string) :
  rows_of k interleaved = rows_of k interleaved_reordered.
Proof.
  unfold rows_of, interleaved, interleaved_reordered. cbn [List.filter].
  unfold Groupby.in_group, trade. cbn [issuerSymbol].
  destruct (String.eqb_spec "AAPL" k), (String.eqb_spec "MSFT" k);
    try reflexivity. congruence.
Qed.

Lemma aggregate_by_issuer_reorder_witness :
  columns (aggregate_by_issuer interleaved) = columns (aggregate_by_issuer interleaved_reordered)
  /\ Permutation (map symbol_count (rows (aggregate_by_issuer interleaved)))
                 (map symbol_count (rows (aggregate_by_issuer interleaved_reordered)))
  /\ aggregate_by_issuer interleaved = aggregate_by_issuer interleaved_reordered.
Proof.
  destruct (aggregate_by_issuer_reorder interleaved interleaved_reordered)
    as (Hc & Hp & Hall).
  - unfold interleaved, interleaved_reordered. apply perm_swap.
  - split; [exact Hc|]. split; [exact Hp|]. apply Hall, interleaved_same_groups.
Defined.

(** *** The row of an issuer *)

Section IssuerRows.

Import Groupby.

Lemma existsb_eqb_In (k : string) (l : list string) :
  existsb (String.eqb k) l = true <-> In k l.
Proof.
  rewrite existsb_exists. split.
  - intros [x [Hx E]]. apply String.eqb_eq in E. now subst.
  - intros H. exists k. split; [exact H | apply String.eqb_refl].
Qed.

Lemma add_keys_present (l acc : list string) :
  (forall x, In x l -> In x acc) -> fold_left add_key l acc = acc.
Proof.
  induction l as [|k l IH]; intros H; [reflexivity|]. simpl.
  unfold add_key at 2.
  assert (existsb (String.eqb k) acc = true) as ->
      by (apply existsb_eqb_In, H; now left).
  apply IH. intros x Hx. apply H. now right.
Qed.

Lemma add_keys_new (l acc : list string) :
  List.NoDup (acc ++ l) -> fold_left add_key l acc = acc ++ l.
Proof.
  revert acc; induction l as [|k l IH]; intros acc H; simpl.
  - now rewrite app_nil_r.
  - unfold add_key at 2.
    assert (existsb (String.eqb k) acc = false) as ->.
    { apply not_true_is_false. intros E. apply existsb_eqb_In in E.
      apply List.NoDup_remove_2 in H. apply H. apply in_or_app. now left. }
    rewrite IH; rewrite <- app_assoc; [reflexivity | exact H].
Qed.

(** The union of the four indexes is the first, which holds every key. *)
Lemma index_union_first (K Kt Kb Ks : list string) :
  List.NoDup K ->
  (forall x, In x Kt -> In x K) -> (forall x, In x Kb -> In x K) ->
  (forall x, In x Ks -> In x K) ->
  index_union [K; Kt; Kb; Ks] = K.
Proof.
  intros Hnd Ht Hb Hs. unfold index_union. cbn [List.concat].
  change (fun acc k => if existsb (String.eqb k) acc then acc else acc ++ [k])
    with add_key.
  rewrite fold_left_app, (add_keys_new K []) by exact Hnd. cbn [app].
  apply add_keys_present. intros x Hx. rewrite app_nil_r in Hx.
  apply in_app_or in Hx as [Hx|Hx]; [now apply Ht|].
  apply in_app_or in Hx as [Hx|Hx]; [now apply Hb | now apply Hs].
Qed.

Lemma series_get_map {V : Type} (f : string -> V) (k : string) (keys : list string) :
  series_get k (map (fun k' => (k', f k')) keys)
  = if existsb (String.eqb k) keys then Some (f k) else None.
Proof.
  induction keys as [|h keys IH]; [reflexivity|]. simpl.
  rewrite (String.eqb_sym k h).
  destruct (String.eqb_spec h k) as [->|Hne]; [reflexivity | exact IH].
Qed.

Lemma group_keys_with_code (c : string) (t : list tx) (x : string) :
  In x (group_keys (with_code c t)) -> In x (group_keys t).
Proof.
  unfold group_keys. rewrite !in_sorted_keys, !in_map_iff.
  intros [r [<- Hr]]. exists r. split; [reflexivity|].
  now apply filter_In in Hr as [Hr _].
Qed.

Lemma group_shares_absent (k : string) (t : list tx) :
  ~ In k (group_keys t) -> group_shares k t = [].
Proof.
  intros H. unfold group_shares.
  destruct (List.filter (in_group k) t) as [|r rest] eqn:E; [reflexivity|].
  exfalso. apply H. unfold group_keys. apply in_sorted_keys, in_map_iff.
  assert (In r (List.filter (in_group k) t)) as Hr by (rewrite E; now left).
  apply filter_In in Hr as [Hr Hk]. unfold in_group in Hk.
  apply String.eqb_eq in Hk. exists r. auto.
Qed.

(** The cell of a sum column: the group's sum, or 0 where the series has
    no such key or the group no value. *)
Lemma sum_cell (k : string) (t : list tx) :
  fill0 (float_cell (series_get k (sum_by_issuer t)))
  = fill0 (group_sum (group_shares k t)).
Proof.
  unfold sum_by_issuer. rewrite series_get_map.
  destruct (existsb (String.eqb k) (group_keys t)) eqn:E; [reflexivity|].
  rewrite group_shares_absent; [reflexivity|].
  intros H. apply existsb_eqb_In in H. congruence.
Qed.

Lemma count_cell (k : string) (t : list tx) :
  In k (group_keys t) ->
  series_get k (count_by_issuer t) = Some (group_count (group_shares k t)).
Proof.
  intros H. unfold count_by_issuer. rewrite series_get_map.
  apply existsb_eqb_In in H. now rewrite H.
Qed.

(** The aggregate has one row per issuer symbol of the table, sorted. *)
Lemma aggregate_rows_by_key (t : list tx) :
  aggregate_rows t = sort_values (map (issuer_row t) (group_keys t)).
Proof.
  unfold aggregate_rows, concat_columns. f_equal.
  rewrite !sum_by_issuer_keys, count_by_issuer_keys.
  rewrite index_union_first.
  - rewrite map_map. apply map_ext_in. intros k Hk.
    unfold fillna, issuer_row. cbn [w_key w_n w_total w_buys w_sells].
    rewrite (count_cell k t Hk), !sum_cell.
    unfold group_shares, rows_of. reflexivity.
  - apply sorted_keys_NoDup.
  - auto.
  - apply group_keys_with_code.
  - apply group_keys_with_code.
Qed.

End IssuerRows.

(** For every transactions table and every issuer symbol that occurs in it,
    the aggregate has the row of that issuer: nTransactions is the number
    of its records whose share count is present, totalShares the grouped
    sum of those share counts, buys and sells the same over its records
    with code P and S, a sum without any value being 0. *)
Theorem aggregate_by_issuer_rows (t : list tx) (k : string) :
  In k (map issuerSymbol t) ->
  In (issuer_row t k) (rows (aggregate_by_issuer t))
  /\ Permutation (map a_issuerSymbol (rows (aggregate_by_issuer t)))
                 (Groupby.group_keys t).
Proof.
  intros Hk. destruct t as [|r t]; [destruct Hk|].
  cbn [aggregate_by_issuer rows]. rewrite aggregate_rows_by_key. split.
  - eapply Permutation_in; [symmetry; apply sort_values_perm|].
    apply in_map. now apply in_sorted_keys.
  - rewrite sort_values_perm, map_map. cbn [issuer_row a_issuerSymbol].
    now rewrite map_id.
Qed.

Lemma aggregate_by_issuer_rows_witness :
  In (issuer_row interleaved "AAPL") (rows (aggregate_by_issuer interleaved))
  /\ Permutation (map a_issuerSymbol (rows (aggregate_by_issuer interleaved)))
                 (Groupby.group_keys interleaved).
Proof.
  apply (aggregate_by_issuer_rows interleaved "AAPL"). cbn. now left.
Defined.

Example issuer_row_ex :
  issuer_row interleaved "AAPL" = mk_agg_row "AAPL" 2 130 100 30.
Proof. vm_compute. reflexivity. Qed.

(** *** Empty inputs *)

(** C5: on an empty transactions table [aggregate_by_issuer] returns a frame
    without rows whose columns are issuerSymbol, nTransactions, totalShares,
    buys and sells, and on an empty filings table [weekly_baseline] returns
    the float 0.0. *)
Theorem empty_input_empty_result :
  aggregate_by_issuer []
  = {| columns := ["issuerSymbol"; "nTransactions"; "totalShares"; "buys"; "sells"]%string;
       rows := [] |}
  /\ weekly_baseline [] = 0.
Proof. split; reflexivity. Qed.

(** C4 at its failing input: the table holds one record with the symbol
    AAPL, and the aggregate row for AAPL has nTransactions 0:
    [.count()] on the shares column counts the share counts that are
    present, not the records. *)
Theorem aggregate_by_issuer_counts_present_shares :
  List.length (rows_of "AAPL" purchase_without_shares) = 1%nat
  /\ rows (aggregate_by_issuer purchase_without_shares) = [ mk_agg_row "AAPL" 0 0 0 0 ].
Proof. split; vm_compute; reflexivity. Qed.

(** ** The weekly baseline *)

Section Baseline.

Import Groupby.

Local Open Scope Z_scope.

Lemma Zsum_zero {A : Type} (l : list A) : Zsum (map (fun _ => 0) l) = 0.
Proof. induction l; simpl; lia. Qed.

Lemma Zsum_add {A : Type} (f g : A -> Z) (l : list A) :
  Zsum (map (fun a => f a + g a) l) = Zsum (map f l) + Zsum (map g l).
Proof. induction l; simpl; lia. Qed.

Lemma hit_none (r : filing) (keys : list string) :
  f_date r = None -> Zsum (map (hit r) keys) = 0.
Proof.
  intros H. rewrite <- (Zsum_zero keys). f_equal. apply map_ext.
  intros d. unfold hit, dated. now rewrite H.
Qed.

Lemma hit_absent (r : filing) (d0 : string) (keys : list string) :
  f_date r = Some d0 -> ~ In d0 keys -> Zsum (map (hit r) keys) = 0.
Proof.
  intros H Hn. induction keys as [|d keys IH]; [reflexivity|]. simpl.
  rewrite IH by (intros Hin; apply Hn; now right).
  unfold hit, dated. rewrite H.
  destruct (String.eqb_spec d0 d) as [->|Hne]; [|reflexivity].
  exfalso. apply Hn. now left.
Qed.

(** A dated row is counted under exactly one key. *)
Lemma hit_once (r : filing) (d0 : string) (keys : list string) :
  f_date r = Some d0 -> List.NoDup keys -> In d0 keys ->
  Zsum (map (hit r) keys) = if has_filename r then 1 else 0.
Proof.
  intros H Hnd Hin. induction Hnd as [|d keys Hd Hnd IH]; [destruct Hin|].
  simpl. destruct Hin as [->|Hin].
  - rewrite (hit_absent r d0 keys H Hd). unfold hit, dated. rewrite H, String.eqb_refl.
    simpl. destruct (has_filename r); reflexivity.
  - rewrite IH by exact Hin. unfold hit at 1. unfold dated. rewrite H.
    destruct (String.eqb_spec d0 d) as [->|Hne]; [contradiction|]. reflexivity.
Qed.

Lemma day_count_cons (r : filing) (w : list filing) (d : string) :
  day_count (r :: w) d = hit r d + day_count w d.
Proof.
  unfold day_count, hit. simpl. destruct (dated d r); simpl; [|lia].
  destruct (has_filename r); simpl; lia.
Qed.

(** The per-day counts add up to the number of counted rows. *)
Lemma day_counts_total (keys : list string) (w : list filing) :
  List.NoDup keys -> (forall d, In d (dates_of w) -> In d keys) ->
  Zsum (map (day_count w) keys) = Z.of_nat (List.length (List.filter counted w)).
Proof.
  intros Hnd. induction w as [|r w IH]; intros Hall.
  - simpl. apply Zsum_zero.
  - rewrite (map_ext _ _ (day_count_cons r w)), Zsum_add.
    rewrite IH by (intros d Hd; apply Hall; unfold dates_of; simpl;
                   apply in_or_app; now right).
    cbn [List.filter].
    destruct (f_date r) as [d0|] eqn:E.
    + rewrite (hit_once r d0 keys E Hnd) by (apply Hall; simpl; rewrite E; now left).
      assert (counted r = has_filename r) as ->
          by (unfold counted, has_date; now rewrite E).
      destruct (has_filename r); cbn [List.length]; lia.
    + rewrite (hit_none r keys E).
      assert (counted r = false) as -> by (unfold counted, has_date; now rewrite E).
      lia.
Qed.

Lemma sorted_keys_size (l : list string) :
  List.length (sorted_keys l) = size (list_to_set l : gset string).
Proof.
  rewrite <- (size_list_to_set (C := gset string) (sorted_keys l))
    by (apply NoDup_ListNoDup, sorted_keys_NoDup).
  f_equal. apply set_eq. intros x.
  rewrite !elem_of_list_to_set, !list_elem_of_In. apply in_sorted_keys.
Qed.

Lemma sorted_keys_nil (l : list string) : sorted_keys l = [] -> l = [].
Proof.
  destruct l as [|x l]; [reflexivity|]. intros H.
  assert (In x (sorted_keys (x :: l))) as Hin by (apply in_sorted_keys; now left).
  rewrite H in Hin. destruct Hin.
Qed.

End Baseline.

Lemma nonempty_branch {A B : Type} (l : list A) (x y : B) :
  l <> [] -> match l with [] => x | _ :: _ => y end = y.
Proof. destruct l; [congruence | reflexivity]. Qed.

(** C6, as stated, fails: two filings of one day give the baseline 2.0,
    which is their number divided by the one date that occurs, not by the
    seven days of the window (nor by the eight the collector visits). *)
Lemma weekly_baseline_not_over_window :
  weekly_baseline one_busy_day = 2
  /\ weekly_baseline one_busy_day
     <> float_of_Z (Z.of_nat (List.length one_busy_day)) / 7
  /\ weekly_baseline one_busy_day
     <> float_of_Z (Z.of_nat (List.length one_busy_day)) / 8.
Proof.
  split; [vm_compute; reflexivity|].
  split; intros H; apply (f_equal (fun x => PrimFloat.eqb x 2)) in H;
    vm_compute in H; discriminate H.
Qed.

(** C6 (amended): [weekly_baseline] returns the number of rows that have a
    date and a Filename divided, in float64, by the number of distinct
    dates that occur in the input, and 0.0 when no row has a date, in
    particular for an empty input. *)
Theorem weekly_baseline_mean_over_dates (w : list filing) :
  weekly_baseline w
  = match dates_of w with
    | [] => 0
    | _ :: _ =>
        float_of_Z (Z.of_nat (List.length (List.filter counted w)))
        / float_of_Z (Z.of_nat (distinct_dates w))
    end.
Proof.
  destruct w as [|r w]; [reflexivity|].
  unfold weekly_baseline, filings_per_day.
  set (rows := r :: w).
  destruct (dates_of rows) as [|d' ds'] eqn:E'; [reflexivity|].
  rewrite <- E'.
  rewrite nonempty_branch.
  - unfold mean. rewrite map_map. cbn [snd].
    rewrite !length_map. unfold distinct_dates.
    rewrite <- sorted_keys_size.
    change (fun x : string =>
              Z.of_nat (List.length (List.filter has_filename (List.filter (dated x) rows))))
      with (day_count rows).
    rewrite (day_counts_total (Groupby.sorted_keys (dates_of rows)) rows).
    + reflexivity.
    + apply sorted_keys_NoDup.
    + intros x Hx. now apply in_sorted_keys.
  - intros H. apply map_eq_nil, sorted_keys_nil in H. congruence.
Qed.

(** ** The input table is left as it was *)

Section Frame.

Lemma returns_ret {A : Type} (a : A) (h : heap) (Q : A -> heap -> Prop) :
  Q a h -> returns (ret a) h Q.
Proof. intros H. exists a, h. auto. Qed.

Lemma returns_bind {A B : Type} (m : Py A) (k : A -> Py B) (h : heap)
    (Q : A -> heap -> Prop) (R : B -> heap -> Prop) :
  returns m h Q ->
  (forall a h', h ⊆ h' -> Q a h' -> returns (k a) h' R) ->
  returns (bind m k) h R.
Proof.
  intros (a & h1 & Hm & Hsub & HQ) Hk.
  destruct (Hk a h1 Hsub HQ) as (b & h2 & Hk' & Hsub' & HR).
  exists b, h2. unfold bind. rewrite Hm. split; [exact Hk'|].
  split; [|exact HR]. etransitivity; eassumption.
Qed.

Lemma returns_load (l : loc) (o : pyobj) (h : heap) :
  h !! l = Some o -> returns (load l) h (fun x h' => x = o /\ h' = h).
Proof. intros H. exists o, h. unfold load. rewrite H. auto. Qed.

(** A new object takes an address that was free: nothing is overwritten. *)
Lemma returns_alloc (o : pyobj) (h : heap) :
  returns (alloc o) h (fun l h' => h' !! l = Some o).
Proof.
  exists (fresh (dom h)), (<[fresh (dom h) := o]> h). split; [reflexivity|]. split.
  - apply insert_subseteq, not_elem_of_dom, is_fresh.
  - apply lookup_insert_eq.
Qed.

Lemma returns_call1 (f : pyobj -> result pyobj) (l : loc) (o o' : pyobj) (h : heap) :
  h !! l = Some o -> f o = Ok o' ->
  returns (call1 f l) h (fun l' h' => h' !! l' = Some o').
Proof.
  intros Hl Hf. unfold call1. eapply returns_bind; [eapply returns_load; eassumption|].
  intros x h' _ [-> ->]. rewrite Hf. apply returns_alloc.
Qed.

Lemma returns_concat (ln lt lb ls : loc) n total buys sells (h : heap) :
  h !! ln = Some (OCounts n) -> h !! lt = Some (OFloats total) ->
  h !! lb = Some (OFloats buys) -> h !! ls = Some (OFloats sells) ->
  returns (Pandas.concat ln lt lb ls) h
    (fun l' h' => h' !! l' = Some (OWide (concat_columns n total buys sells))).
Proof.
  intros Hn Ht Hb Hs. unfold Pandas.concat.
  eapply returns_bind; [eapply returns_load; eassumption|]. intros ? ? _ [-> ->].
  eapply returns_bind; [eapply returns_load; eassumption|]. intros ? ? _ [-> ->].
  eapply returns_bind; [eapply returns_load; eassumption|]. intros ? ? _ [-> ->].
  eapply returns_bind; [eapply returns_load; eassumption|]. intros ? ? _ [-> ->].
  apply returns_alloc.
Qed.

Lemma returns_empty (l : loc) (t : list tx) (h : heap) :
  h !! l = Some (OTable t) ->
  returns (Pandas.empty l) h
    (fun e h' => e = match t with [] => true | _ :: _ => false end /\ h' = h).
Proof.
  intros Hl. unfold Pandas.empty.
  eapply returns_bind; [eapply returns_load; eassumption|]. intros ? ? _ [-> ->].
  now apply returns_ret.
Qed.

End Frame.

Ltac sub_chain :=
  solve [ reflexivity | eassumption | etransitivity; [eassumption | sub_chain] ].

Ltac solve_lookup :=
  first [ eassumption | eapply lookup_weaken; [eassumption | sub_chain] ].

Ltac call lem :=
  eapply returns_bind;
  [ eapply lem; first [ solve_lookup | reflexivity ]
  | let l := fresh "l" in let h := fresh "h" in
    let Hsub := fresh "Hsub" in let Hl := fresh "Hl" in
    intros l h Hsub Hl; cbn beta in Hl ].

(** C9: run on the address of a transactions table, [aggregate_by_issuer]
    returns the address of a new frame holding the aggregate, and every
    object the store held before the call, the input table among them, is
    what it was. *)
Theorem aggregate_by_issuer_leaves_input (h : heap) (transactions : loc) (t : list tx) :
  h !! transactions = Some (OTable t) ->
  exists out h',
    aggregate_by_issuer_at transactions h = Ok (out, h')
    /\ h' !! out = Some (OFrame (aggregate_by_issuer t))
    /\ h' !! transactions = Some (OTable t)
    /\ (forall l o, h !! l = Some o -> h' !! l = Some o).
Proof.
  intros Ht.
  assert (returns (aggregate_by_issuer_at transactions) h
            (fun out h' => h' !! out = Some (OFrame (aggregate_by_issuer t)))) as Hrun.
  { unfold aggregate_by_issuer_at.
    eapply returns_bind; [eapply returns_empty; eassumption|]. intros e h0 _ [-> ->].
    destruct t as [|r t].
    - apply returns_alloc.
    - set (tbl := r :: t) in *.
      do 10 call returns_call1.
      call returns_concat.
      do 2 call returns_call1.
      eapply returns_call1; [eassumption | reflexivity]. }
  destruct Hrun as (out & h' & Hrun & Hsub & Hout).
  exists out, h'. split; [exact Hrun|]. split; [exact Hout|]. split.
  - eapply lookup_weaken; eassumption.
  - intros l o Hl. eapply lookup_weaken; eassumption.
Qed.

Lemma store_overwrites (l : loc) (o : pyobj) (h : heap) :
  exists h', store l o h = Ok (tt, h') /\ h' !! l = Some o.
Proof. eexists. split; [reflexivity|]. apply lookup_insert_eq. Qed.

Lemma aggregate_by_issuer_leaves_input_witness :
  exists out h',
    aggregate_by_issuer_at 1%positive {[ 1%positive := OTable interleaved ]} = Ok (out, h')
    /\ h' !! out = Some (OFrame (aggregate_by_issuer interleaved))
    /\ h' !! 1%positive = Some (OTable interleaved)
    /\ (forall l o, ({[ 1%positive := OTable interleaved ]} : heap) !! l = Some o ->
                    h' !! l = Some o).
Proof.
  apply (aggregate_by_issuer_leaves_input {[ 1%positive := OTable interleaved ]}
           1%positive interleaved).
  apply lookup_singleton_eq.
Defined.

(** ** The sample run *)

Example list_form4_sample :
  list_form4_filings_for_range index_server 739253%Z 739253%Z
  = [ mk_filing (Some "0000320193") (Some "Apple Inc.") (Some "4") (Some "20250102")
        (Some "edgar/data/320193/0000320193-25-000123.txt") (Some "2025-01-02");
      mk_filing (Some "0001318605") (Some "Tesla, Inc.") (Some "4/A") (Some "20250102")
        (Some "edgar/data/1318605/0001318605-25-000044.txt") (Some "2025-01-02") ]%string.
Proof. vm_compute. reflexivity. Qed.

Lemma list_form4_filings_for_range_union_witness :
  let out := list_form4_filings_for_range index_server 739253%Z 739254%Z in
  out = flat_map (day_rows index_server) (seqZ 739253%Z (739254%Z - 739253%Z + 1))
  /\ (exists per_day,
        out = concat per_day
        /\ Forall2 (day_union index_server) (seqZ 739253%Z (739254%Z - 739253%Z + 1)) per_day)
  /\ Forall (fun f => f_Form_Type f = Some "4"%string
                      \/ f_Form_Type f = Some "4/A"%string) out
  /\ (forall f, In f out ->
        exists d df row,
          (739253%Z <= d <= 739254%Z)%Z /\ fetch_daily_master_idx index_server d = Ok df
          /\ In row df /\ form_type_4 row /\ collected d row f)
  /\ (forall d df row,
        (739253%Z <= d <= 739254%Z)%Z -> fetch_daily_master_idx index_server d = Ok df ->
        In row df -> form_type_4 row ->
        exists f, In f out /\ collected d row f).
Proof.
  apply (list_form4_filings_for_range_union index_server 739253%Z 739254%Z). lia.
Defined.

Example parse_form4_sample :
  parse_form4_xml sample_float sample_fromstring "<ownershipDocument/>"
  = Ok {| p_issuerSymbol := "AAPL";
          p_issuerName := "Apple Inc.";
          p_transactions :=
            [ mk_raw_tx "AAPL" "Apple Inc." "P" (Some 100) (Some 12.5)
                (Some "2025-01-02"%string) (Some "D"%string);
              mk_raw_tx "AAPL" "Apple Inc." "S" None (Some 12.5)
                (Some "2025-01-03"%string) (Some "D"%string) ] |}.
Proof. vm_compute. reflexivity. Qed.

Lemma parse_form4_xml_one_row_per_transaction_witness :
  exists p,
    parse_form4_xml sample_float sample_fromstring "<ownershipDocument/>" = Ok p
    /\ p_issuerSymbol p = first_text_below "issuerTradingSymbol" sample_document
    /\ p_issuerName p = first_text_below "issuerName" sample_document
    /\ Permutation (p_transactions p)
         (map (record_of sample_float (p_issuerSymbol p) (p_issuerName p))
            (transactions_by_local_name sample_document))
    /\ List.length (p_transactions p) = List.length (transactions_by_local_name sample_document).
Proof.
  apply (parse_form4_xml_one_row_per_transaction sample_float sample_fromstring
           "<ownershipDocument/>" sample_document).
  - reflexivity.
  - vm_compute. reflexivity.
  - vm_compute. reflexivity.
Defined.

Example sample_summary_rows : sample_summary = Ok sample_rows.
Proof. vm_compute. reflexivity. Qed.

Lemma build_activity_summary_limit_witness :
  let docs :=
    firstn (Z.to_nat 1%Z)
      (parsed_documents index_server sample_json_loads sample_int sample_float
         sample_fromstring sample_filings) in
  sample_rows = map (clean sample_to_datetime) (flat_map p_transactions docs)
  /\ (Z.of_nat (List.length docs) <= 1)%Z
  /\ (forall r,
        outcome index_server sample_json_loads sample_int sample_float
          sample_fromstring r = Ok None ->
        build_activity_summary index_server sample_json_loads sample_int sample_float
          sample_fromstring sample_to_datetime (r :: sample_filings) 1%Z
        = build_activity_summary index_server sample_json_loads sample_int sample_float
            sample_fromstring sample_to_datetime sample_filings 1%Z).
Proof.
  apply (build_activity_summary_limit index_server sample_json_loads sample_int
           sample_float sample_fromstring sample_to_datetime sample_filings 1%Z sample_rows).
  - lia.
  - exact sample_summary_rows.
Defined.

Lemma build_activity_summary_returns_witness :
  exists df,
    build_activity_summary index_server sample_json_loads sample_int sample_float
      sample_fromstring sample_to_datetime sample_filings 300%Z = Ok df.
Proof.
  apply (build_activity_summary_returns index_server sample_json_loads sample_int
           sample_float sample_fromstring sample_to_datetime sample_filings 300%Z).
  unfold sample_filings. rewrite list_form4_sample.
  repeat constructor; eexists; vm_compute; reflexivity.
Defined.

(** ** The order of the aggregate and the top issuer *)

Section Ranking.

Import Groupby.

Local Open Scope Z_scope.

Lemma insert_row_by_count (x : agg_row) (l : list agg_row) :
  StronglySorted by_count l -> StronglySorted by_count (insert_row x l).
Proof.
  induction 1 as [|y rest Hs IH Hy]; cbn [insert_row].
  - repeat constructor.
  - unfold before. destruct (nTransactions x <? nTransactions y) eqn:E; cbn [orb].
    + apply Z.ltb_lt in E. constructor; [exact IH|].
      apply List.Forall_forall. intros a Ha.
      eapply Permutation_in in Ha; [|apply insert_row_perm].
      destruct Ha as [<-|Ha]; [unfold by_count; lia|].
      rewrite List.Forall_forall in Hy. now apply Hy.
    + apply Z.ltb_ge in E.
      assert (StronglySorted by_count (x :: y :: rest)) as Hx.
      { constructor; [now constructor|]. constructor; [exact E|].
        eapply List.Forall_impl; [|exact Hy]. unfold by_count. intros a Ha. lia. }
      destruct ((nTransactions y =? nTransactions x)
                && PrimFloat.ltb (totalShares x) (totalShares y))%bool eqn:E2;
        [|exact Hx].
      apply andb_true_iff in E2 as [E2 _]. apply Z.eqb_eq in E2.
      constructor; [exact IH|].
      apply List.Forall_forall. intros a Ha.
      eapply Permutation_in in Ha; [|apply insert_row_perm].
      destruct Ha as [<-|Ha]; [unfold by_count; lia|].
      rewrite List.Forall_forall in Hy. now apply Hy.
Qed.

Lemma sort_values_by_count (l : list agg_row) : StronglySorted by_count (sort_values l).
Proof.
  induction l as [|x l IH]; cbn [sort_values fold_right]; [constructor|].
  now apply insert_row_by_count.
Qed.

Lemma aggregate_rows_by_count (t : list tx) : StronglySorted by_count (aggregate_rows t).
Proof. unfold aggregate_rows. apply sort_values_by_count. Qed.

(** The rows of the aggregate come with nTransactions never increasing:
    every row has at least as many transactions as each row after it. *)
Theorem aggregate_by_issuer_sorted_by_count (t : list tx) :
  StronglySorted by_count (rows (aggregate_by_issuer t)).
Proof.
  destruct t as [|r t]; [constructor|].
  cbn [aggregate_by_issuer rows]. apply aggregate_rows_by_count.
Qed.

Lemma group_keys_nonempty (r : tx) (t : list tx) : group_keys (r :: t) <> [].
Proof.
  intros H. assert (In (issuerSymbol r) (group_keys (r :: t))) as Hin.
  { apply (proj2 (in_sorted_keys _ _)). now left. }
  rewrite H in Hin. destruct Hin.
Qed.

Lemma in_aggregate_rows (t : list tx) (a : agg_row) :
  In a (aggregate_rows t) <->
  exists k, In k (map issuerSymbol t) /\ a = issuer_row t k.
Proof.
  rewrite aggregate_rows_by_key. split.
  - intros H. eapply Permutation_in in H; [|apply sort_values_perm].
    apply in_map_iff in H as [k [<- Hk]]. exists k. split; [|reflexivity].
    exact (proj1 (in_sorted_keys _ _) Hk).
  - intros [k [Hk ->]]. eapply Permutation_in; [symmetry; apply sort_values_perm|].
    apply in_map. exact (proj2 (in_sorted_keys _ _) Hk).
Qed.

(** The top issuer of the report: there is none exactly when the table is
    empty; otherwise it is the aggregate row of an issuer of the table, and
    no issuer of the table has more transactions. *)
Theorem top_row_most_transactions (t : list tx) :
  (top_row (aggregate_by_issuer t) = None <-> t = [])
  /\ (forall top, top_row (aggregate_by_issuer t) = Some top ->
        In (a_issuerSymbol top) (map issuerSymbol t)
        /\ top = issuer_row t (a_issuerSymbol top)
        /\ forall k, In k (map issuerSymbol t) ->
             nTransactions (issuer_row t k) <= nTransactions top).
Proof.
  destruct t as [|r t].
  - split; [split; reflexivity|]. intros top H. discriminate H.
  - assert (In (issuerSymbol r) (map issuerSymbol (r :: t))) as Hr by now left.
    remember (r :: t) as tbl eqn:Et.
    pose proof (aggregate_rows_by_count tbl) as Hs.
    assert (rows (aggregate_by_issuer tbl) = aggregate_rows tbl) as Hrows
        by now subst tbl.
    unfold top_row. rewrite Hrows. clear Hrows.
    destruct (aggregate_rows tbl) as [|a rest] eqn:E.
    + exfalso. assert (In (issuer_row tbl (issuerSymbol r)) (aggregate_rows tbl)) as Hin
          by (apply in_aggregate_rows; eauto).
      rewrite E in Hin. destruct Hin.
    + split; [split; [discriminate | intros ->; discriminate Et]|]. intros top [= <-].
      assert (In a (aggregate_rows tbl)) as Ha by (rewrite E; now left).
      apply in_aggregate_rows in Ha as [k [Hk ->]]. cbn [issuer_row a_issuerSymbol].
      split; [exact Hk|]. split; [reflexivity|].
      intros k' Hk'.
      assert (In (issuer_row tbl k') (aggregate_rows tbl)) as Hin
          by (apply in_aggregate_rows; eauto).
      rewrite E in Hin. destruct Hin as [<-|Hin]; [lia|].
      apply StronglySorted_inv in Hs as [_ Hall].
      rewrite List.Forall_forall in Hall. apply (Hall _ Hin).
Qed.

Lemma Zsum_perm (l1 l2 : list Z) : Permutation l1 l2 -> Zsum l1 = Zsum l2.
Proof. induction 1; cbn [Zsum fold_right] in *; unfold Zsum in *; lia. Qed.

Lemma tally_absent (r : tx) (keys : list string) :
  ~ In (issuerSymbol r) keys -> Zsum (map (tally r) keys) = 0.
Proof.
  induction keys as [|k keys IH]; intros Hn; [reflexivity|]. cbn [map Zsum fold_right].
  fold (Zsum (map (tally r) keys)). rewrite IH by (intros H; apply Hn; now right).
  unfold tally, in_group.
  destruct (String.eqb_spec (issuerSymbol r) k) as [He|Hne]; [|reflexivity].
  exfalso. apply Hn. left. now symmetry.
Qed.

(** A record is counted under exactly one issuer. *)
Lemma tally_once (r : tx) (keys : list string) :
  List.NoDup keys -> In (issuerSymbol r) keys ->
  Zsum (map (tally r) keys) = if present r then 1 else 0.
Proof.
  induction 1 as [|k keys Hk Hnd IH]; intros Hin; [destruct Hin|].
  cbn [map Zsum fold_right]. fold (Zsum (map (tally r) keys)).
  destruct Hin as [He|Hin].
  - subst k. rewrite (tally_absent r keys Hk). unfold tally, in_group.
    rewrite String.eqb_refl. cbn [andb]. destruct (present r); reflexivity.
  - rewrite IH by exact Hin. unfold tally at 1. unfold in_group.
    destruct (String.eqb_spec (issuerSymbol r) k) as [He|Hne]; [|reflexivity].
    exfalso. apply Hk. now rewrite <- He.
Qed.

Lemma group_count_present (l : list tx) :
  group_count (map shares l) = Z.of_nat (List.length (List.filter present l)).
Proof.
  unfold group_count. f_equal.
  induction l as [|r l IH]; [reflexivity|]. cbn [map List.filter].
  unfold present at 1. destruct (notna (shares r)); cbn [List.length]; now rewrite IH.
Qed.

Lemma group_count_cons (r : tx) (t : list tx) (k : string) :
  group_count (map shares (rows_of k (r :: t)))
  = tally r k + group_count (map shares (rows_of k t)).
Proof.
  rewrite !group_count_present. unfold rows_of, tally. cbn [List.filter].
  destruct (in_group k r); cbn [andb List.filter]; [|lia].
  destruct (present r); cbn [List.length]; lia.
Qed.

Lemma group_counts_total (keys : list string) (t : list tx) :
  List.NoDup keys -> (forall r, In r t -> In (issuerSymbol r) keys) ->
  Zsum (map (fun k => group_count (map shares (rows_of k t))) keys)
  = Z.of_nat (List.length (List.filter present t)).
Proof.
  intros Hnd. induction t as [|r t IH]; intros Hall.
  - cbn. apply (Zsum_zero keys).
  - rewrite (map_ext _ _ (group_count_cons r t)), Zsum_add.
    rewrite IH by (intros r' Hr'; apply Hall; now right).
    rewrite (tally_once r keys Hnd) by (apply Hall; now left).
    cbn [List.filter]. destruct (present r); cbn [List.length]; lia.
Qed.

(** The transaction counts of the aggregate add up to the number of
    records of the table that have a share count: every such record is
    counted once, under its issuer, and no other record is counted. *)
Theorem aggregate_by_issuer_counts_total (t : list tx) :
  Zsum (map nTransactions (rows (aggregate_by_issuer t)))
  = Z.of_nat (List.length (List.filter present t)).
Proof.
  destruct t as [|r t]; [reflexivity|].
  cbn [aggregate_by_issuer rows]. rewrite aggregate_rows_by_key.
  rewrite (Zsum_perm _ _ (Permutation_map nTransactions (sort_values_perm _))).
  rewrite map_map. cbn [issuer_row nTransactions].
  apply group_counts_total; [apply sorted_keys_NoDup|].
  intros r' Hr'. apply (proj2 (in_sorted_keys _ _)). now apply in_map.
Qed.

End Ranking.

(** ** The limit on the number of documents *)

Section Limit.

Variable server : string -> result string.
Variable json_loads : string -> result json.
Variable py_int : string -> option Z.
Variable py_float : string -> option float.
Variable fromstring : string -> result element.
Variable to_datetime : option string -> option Z.

Local Abbreviation summary_loop := (summary_loop server json_loads py_int py_float fromstring).
Local Abbreviation build_activity_summary := (build_activity_summary server json_loads py_int py_float fromstring to_datetime).
Local Abbreviation outcome := (outcome server json_loads py_int py_float fromstring).
Local Abbreviation parsed_documents := (parsed_documents server json_loads py_int py_float fromstring).

Local Open Scope Z_scope.

(** The [break] of the loop: with no room left under the limit, the rows
    still to come are not looked at. *)
Lemma summary_loop_break (filings : list filing) (rows : list raw_tx)
    (count max_filings : Z) :
  max_filings <= count -> summary_loop filings rows count max_filings = Ok rows.
Proof.
  intros H. destruct filings as [|r rest]; [reflexivity|].
  rewrite summary_loop_cons. destruct (Z.geb_spec count max_filings); [reflexivity | lia].
Qed.

Lemma summary_loop_stops (filings later : list filing) :
  forall rows count max_filings,
    max_filings - count <= Z.of_nat (List.length (parsed_documents filings)) ->
    summary_loop (filings ++ later) rows count max_filings
    = summary_loop filings rows count max_filings.
Proof.
  induction filings as [|r rest IH]; intros rows count max_filings Hroom.
  - cbn in Hroom. cbn [app]. rewrite summary_loop_break by lia. reflexivity.
  - cbn [app]. rewrite !summary_loop_cons.
    destruct (count >=? max_filings) eqn:Hge; [reflexivity|].
    unfold parsed_documents in Hroom. cbn [flat_map] in Hroom.
    fold (parsed_documents rest) in Hroom.
    destruct (outcome r) as [[p|]|e]; [| |reflexivity].
    + apply IH. cbn [app List.length] in Hroom. lia.
    + apply IH. exact Hroom.
Qed.

(** Once [max_filings] documents have been parsed the loop is left: the
    rows that follow in the frame change nothing, whatever they hold, be it
    a Filename on which the locator raises. *)
Theorem build_activity_summary_stops_at_limit (filings_df later : list filing)
    (max_filings : Z) :
  max_filings <= Z.of_nat (List.length (parsed_documents filings_df)) ->
  build_activity_summary (filings_df ++ later) max_filings
  = build_activity_summary filings_df max_filings.
Proof.
  intros H. unfold build_activity_summary.
  rewrite summary_loop_stops by lia. reflexivity.
Qed.

(** With a limit of zero, or a negative one, nothing is located, fetched
    or parsed: the summary is the empty table for every filings frame. *)
Theorem build_activity_summary_no_room (filings_df : list filing) (max_filings : Z) :
  max_filings <= 0 -> build_activity_summary filings_df max_filings = Ok [].
Proof.
  intros H. unfold build_activity_summary.
  rewrite summary_loop_break by exact H. reflexivity.
Qed.

End Limit.

Lemma build_activity_summary_stops_at_limit_witness :
  build_activity_summary index_server sample_json_loads sample_int sample_float
    sample_fromstring sample_to_datetime (sample_filings ++ unparsable_filings) 1%Z
  = build_activity_summary index_server sample_json_loads sample_int sample_float
      sample_fromstring sample_to_datetime sample_filings 1%Z.
Proof.
  apply (build_activity_summary_stops_at_limit index_server sample_json_loads sample_int
           sample_float sample_fromstring sample_to_datetime sample_filings
           unparsable_filings 1%Z).
  vm_compute. discriminate.
Defined.

Lemma build_activity_summary_no_room_witness :
  build_activity_summary index_server sample_json_loads sample_int sample_float
    sample_fromstring sample_to_datetime unparsable_filings 0%Z = Ok [].
Proof.
  apply (build_activity_summary_no_room index_server sample_json_loads sample_int
           sample_float sample_fromstring sample_to_datetime unparsable_filings 0%Z).
  lia.
Defined.

(** ** Ranges of days and the two spans *)

Lemma append_cons (c : ascii) (a b : string) : String c a +:+ b = String c (a +:+ b).
Proof. reflexivity. Qed.

Lemma length_append (a b : string) :
  String.length (a +:+ b) = (String.length a + String.length b)%nat.
Proof.
  induction a as [|c a IH]; [reflexivity|].
  rewrite append_cons. cbn [String.length]. now rewrite IH.
Qed.

Lemma length_repeat_char (c : ascii) (n : nat) : String.length (Str.repeat_char c n) = n.
Proof. induction n as [|n IH]; simpl; congruence. Qed.

Lemma zfill_length (width : nat) (s : string) :
  String.length (Str.zfill width s) = Nat.max width (String.length s).
Proof.
  unfold Str.zfill. destruct (Nat.leb_spec width (String.length s)) as [Hle|Hlt]; [lia|].
  destruct s as [|c s].
  - rewrite length_repeat_char. cbn. lia.
  - destruct (Ascii.eqb c "+" || Ascii.eqb c "-"); cbn [String.length] in *;
      rewrite length_append, length_repeat_char; cbn [String.length]; lia.
Qed.

Lemma zfill_fixed (width : nat) (s : string) :
  (width <= String.length s)%nat -> Str.zfill width s = s.
Proof.
  intros H. unfold Str.zfill.
  destruct (Nat.leb_spec width (String.length s)); [reflexivity | lia].
Qed.

Section Ranges.

Variable server : string -> result string.

Local Abbreviation fetch_daily_master_idx := (fetch_daily_master_idx server).
Local Abbreviation list_form4_filings_for_range := (list_form4_filings_for_range server).
Local Abbreviation day_rows := (day_rows server).
Local Abbreviation collect_last24h_and_week := (collect_last24h_and_week server).

Local Open Scope Z_scope.

(** A range of days can be collected in two parts: the rows of
    [start_dt .. end_dt] are those of [start_dt .. mid] followed by those
    of the days after [mid]. *)
Theorem list_form4_filings_for_range_split (start_dt mid end_dt : Z) :
  start_dt <= mid + 1 -> mid <= end_dt ->
  list_form4_filings_for_range start_dt end_dt
  = list_form4_filings_for_range start_dt mid
    ++ list_form4_filings_for_range (mid + 1) end_dt.
Proof.
  intros H1 H2. rewrite !(list_form4_flat_map server).
  replace (end_dt - start_dt + 1)
    with ((mid - start_dt + 1) + (end_dt - (mid + 1) + 1)) by lia.
  rewrite seqZ_app by lia. rewrite flat_map_app.
  do 3 f_equal. lia.
Qed.

(** A range that ends before it starts visits no day, sends no request
    and gives the empty frame. *)
Theorem list_form4_filings_for_range_empty (start_dt end_dt : Z) :
  end_dt < start_dt -> list_form4_filings_for_range start_dt end_dt = [].
Proof.
  intros H. rewrite (list_form4_flat_map server). now rewrite seqZ_nil by lia.
Qed.

(** Every row the collector returns has a CIK of at least ten characters,
    so the [zfill(10)] that [build_activity_summary] applies to it again
    gives it back as it is. *)
Theorem list_form4_filings_for_range_cik (start_dt end_dt : Z) :
  Forall (fun f => exists c, f_CIK f = Some c
                             /\ (10 <= String.length c)%nat
                             /\ Str.zfill 10 (py_str (f_CIK f)) = c)
    (list_form4_filings_for_range start_dt end_dt).
Proof.
  apply List.Forall_forall. intros f Hin.
  rewrite (list_form4_flat_map server) in Hin.
  apply in_flat_map in Hin as (d & _ & Hin).
  apply (in_day_rows server) in Hin as (df & row & _ & _ & _ & ->).
  cbn [normalize_cik f_CIK]. eexists. split; [reflexivity|].
  assert (10 <= String.length (Str.zfill 10 (py_str (f_CIK (stamp d row)))))%nat as Hlen
      by (rewrite zfill_length; lia).
  split; [exact Hlen|]. cbn [py_str]. now apply zfill_fixed.
Qed.

Lemma day_rows_date (d : Z) (f : filing) :
  In f (day_rows d) -> f_date f = Some (Date.strftime_iso d).
Proof.
  intros Hin. apply (in_day_rows server) in Hin as (df & row & _ & _ & _ & ->).
  reflexivity.
Qed.

Lemma dates_of_days (days : list Z) (x : string) :
  In x (dates_of (flat_map day_rows days)) -> In x (map Date.strftime_iso days).
Proof.
  unfold dates_of. intros H. apply in_flat_map in H as (f & Hf & Hx).
  apply in_flat_map in Hf as (d & Hd & Hf).
  rewrite (day_rows_date d f Hf) in Hx. destruct Hx as [<-|[]].
  now apply in_map.
Qed.

Lemma flat_map_one_day {A : Type} (f : Z -> list A) (d : Z) :
  flat_map f (seqZ d 1) = f d.
Proof.
  rewrite seqZ_cons by lia. rewrite seqZ_nil by lia. cbn [flat_map]. apply app_nil_r.
Qed.

(** The two spans overlap and the week has eight days: the last 24 hours
    are yesterday's rows followed by today's; the week is the eight days
    that end yesterday, so yesterday's rows close the week and open the
    last 24 hours; and the daily counts that [weekly_baseline] averages
    over the week are at most eight. *)
Theorem collect_last24h_and_week_spans (now : Z) :
  let s := collect_last24h_and_week now in
  last24 s = day_rows (now - 1) ++ day_rows now
  /\ week s = flat_map day_rows (seqZ (now - 8) 7) ++ day_rows (now - 1)
  /\ (List.length (filings_per_day (week s)) <= 8)%nat.
Proof.
  cbn zeta. unfold collect_last24h_and_week. cbn [last24 week].
  rewrite !(list_form4_flat_map server).
  replace (now - (now - 1) + 1) with 2 by lia.
  replace (now - 1 - (now - 8) + 1) with (7 + 1) by lia.
  split; [|split].
  - rewrite (seqZ_app _ 1 1) by lia. rewrite flat_map_app, !flat_map_one_day.
    do 2 f_equal. lia.
  - rewrite (seqZ_app _ 7 1) by lia. rewrite flat_map_app, flat_map_one_day.
    do 2 f_equal. lia.
  - unfold filings_per_day. rewrite length_map.
    transitivity (List.length (map Date.strftime_iso (seqZ (now - 8) (7 + 1)))).
    + apply NoDup_incl_length; [apply sorted_keys_NoDup|].
      intros x Hx. apply dates_of_days. exact (proj1 (in_sorted_keys _ _) Hx).
    + rewrite length_map, length_seqZ. lia.
Qed.

End Ranges.

Lemma list_form4_filings_for_range_split_witness :
  list_form4_filings_for_range index_server 739253%Z 739254%Z
  = list_form4_filings_for_range index_server 739253%Z 739253%Z
    ++ list_form4_filings_for_range index_server (739253 + 1)%Z 739254%Z.
Proof.
  apply (list_form4_filings_for_range_split index_server 739253%Z 739253%Z 739254%Z); lia.
Defined.

Lemma list_form4_filings_for_range_empty_witness :
  list_form4_filings_for_range index_server 739254%Z 739253%Z = [].
Proof.
  apply (list_form4_filings_for_range_empty index_server 739254%Z 739253%Z). lia.
Defined.

(** ** Documents with a namespace *)

Section Namespaces.

Variable py_float : string -> option float.
Variable fromstring : string -> result element.

Lemma qualified_no_match (t : string) (l : list element) :
  Str.startswith t "{" = false ->
  forallb qualified l = true -> List.filter (has_tag t) l = [].
Proof.
  intros Ht Hl. induction l as [|e l IH]; [reflexivity|].
  cbn [forallb] in Hl. apply andb_true_iff in Hl as [He Hl].
  cbn [List.filter]. rewrite (IH Hl).
  destruct (has_tag t e) eqn:E; [|reflexivity].
  unfold has_tag in E. apply String.eqb_eq in E.
  unfold qualified in He. rewrite E in He. congruence.
Qed.

Lemma findtext_qualified (t : string) (default : option string) (root : element) :
  Str.startswith t "{" = false ->
  forallb qualified (descendants root) = true ->
  findtext [Desc t] default root = default.
Proof.
  intros Ht Hq. unfold findtext, findall. cbn [fold_left select flat_map].
  now rewrite (qualified_no_match t _ Ht Hq).
Qed.

(** A document whose elements below the root all carry a namespace gives
    nothing: the paths name unqualified tags, so the parse returns the
    empty issuer symbol, the empty issuer name and no transaction. *)
Theorem parse_form4_xml_namespaced (xml_bytes : string) (root : element) :
  fromstring xml_bytes = Ok root ->
  forallb qualified (descendants root) = true ->
  parse_form4_xml py_float fromstring xml_bytes
  = Ok {| p_issuerSymbol := EmptyString;
          p_issuerName := EmptyString;
          p_transactions := [] |}.
Proof.
  intros Hparse Hq. unfold parse_form4_xml. rewrite Hparse. cbn [rbind].
  unfold parse_form4_tree.
  rewrite !(findtext_qualified _ _ root) by (reflexivity || exact Hq).
  rewrite findall_transactions.
  rewrite (qualified_no_match TABLE _ Logic.eq_refl Hq). reflexivity.
Qed.

End Namespaces.

Lemma parse_form4_xml_namespaced_witness :
  parse_form4_xml sample_float (fun _ => Ok namespaced_document) "<ownershipDocument/>"
  = Ok {| p_issuerSymbol := EmptyString;
          p_issuerName := EmptyString;
          p_transactions := [] |}.
Proof.
  apply (parse_form4_xml_namespaced sample_float (fun _ => Ok namespaced_document)
           "<ownershipDocument/>" namespaced_document).
  - reflexivity.
  - vm_compute. reflexivity.
Defined.

(** ** The accession number and the directory of a filing *)

Section Accession.

Import Re.

Lemma append_assoc (a b c : string) : (a +:+ b) +:+ c = a +:+ (b +:+ c).
Proof.
  induction a as [|x a IH]; [reflexivity|]. rewrite !append_cons. now rewrite IH.
Qed.

Lemma literal_append (lit s : string) : literal lit (lit +:+ s) = Some s.
Proof.
  induction lit as [|c lit IH]; [now destruct s|].
  rewrite append_cons. cbn [literal]. now rewrite Ascii.eqb_refl.
Qed.

Lemma literal_cons (c : ascii) (lit s : string) :
  literal (String c lit) (String c s) = literal lit s.
Proof. cbn [literal]. now rewrite Ascii.eqb_refl. Qed.

Lemma literal_nil (s : string) : literal EmptyString s = Some s.
Proof. now destruct s. Qed.

Lemma literal_inv (lit s rest : string) : literal lit s = Some rest -> s = lit +:+ rest.
Proof.
  revert s. induction lit as [|c lit IH]; intros s H.
  - destruct s; cbn in H; now injection H as <-.
  - destruct s as [|b s]; [discriminate|]. cbn [literal] in H.
    destruct (Ascii.eqb_spec c b) as [->|]; [|discriminate].
    rewrite append_cons. f_equal. now apply IH.
Qed.

(** A run stops at the first character outside the class. *)
Lemma take_while_append (p : ascii -> bool) (a : string) (c : ascii) (rest : string) :
  all_chars p a = true -> p c = false ->
  take_while p (a +:+ String c rest) = (a, String c rest).
Proof.
  intros Ha Hc. induction a as [|x a IH].
  - change (EmptyString +:+ String c rest) with (String c rest).
    cbn [take_while]. now rewrite Hc.
  - cbn [all_chars] in Ha. apply andb_true_iff in Ha as [Hx Ha].
    rewrite append_cons. cbn [take_while]. rewrite Hx, (IH Ha). reflexivity.
Qed.

Lemma take_while_inv (p : ascii -> bool) (s a b : string) :
  take_while p s = (a, b) -> all_chars p a = true /\ s = a +:+ b.
Proof.
  revert a b. induction s as [|c s IH]; intros a b H; cbn [take_while] in H.
  - injection H as <- <-. now split.
  - destruct (p c) eqn:Hc.
    + destruct (take_while p s) as [a' b'] eqn:E. injection H as <- <-.
      destruct (IH a' b' Logic.eq_refl) as [Ha ->].
      split; [cbn [all_chars]; now rewrite Hc, Ha | now rewrite append_cons].
    + injection H as <- <-. now split.
Qed.

Lemma some_run_inv (p : ascii -> bool) (s a b : string) :
  some_run p s = Some (a, b) -> all_chars p a = true /\ a <> EmptyString /\ s = a +:+ b.
Proof.
  unfold some_run. destruct (take_while p s) as [a' b'] eqn:E.
  destruct a' as [|c a']; [discriminate|]. intros [= <- <-].
  destruct (take_while_inv p s _ _ E) as [Ha Hs]. repeat split; [exact Ha | discriminate | exact Hs].
Qed.

Lemma digits_append (n : nat) (a rest : string) :
  String.length a = n -> all_digits a = true -> digits n (a +:+ rest) = Some (a, rest).
Proof.
  revert a. induction n as [|n IH]; intros a Hlen Ha.
  - destruct a; [reflexivity | discriminate].
  - destruct a as [|c a]; [discriminate|]. cbn [String.length] in Hlen.
    unfold all_digits in Ha. cbn [all_chars] in Ha. apply andb_true_iff in Ha as [Hc Ha].
    rewrite append_cons. cbn [digits]. rewrite Hc, (IH a) by (congruence || exact Ha).
    reflexivity.
Qed.

Lemma digits_inv (n : nat) (s a b : string) :
  digits n s = Some (a, b) -> all_digits a = true /\ s = a +:+ b.
Proof.
  revert s a b. induction n as [|n IH]; intros s a b H; cbn [digits] in H.
  - injection H as <- <-. now split.
  - destruct s as [|c s]; [discriminate|].
    destruct (Str.is_digit c) eqn:Hc; [|discriminate].
    destruct (digits n s) as [[a' b']|] eqn:E; [|discriminate].
    injection H as <- <-. destruct (IH s a' b' E) as [Ha ->].
    split; [unfold all_digits in *; cbn [all_chars]; now rewrite Hc, Ha
           | now rewrite append_cons].
Qed.

Lemma remove_char_append (c : ascii) (a b : string) :
  Str.remove_char c (a +:+ b) = Str.remove_char c a +:+ Str.remove_char c b.
Proof.
  induction a as [|x a IH]; [reflexivity|]. rewrite append_cons. cbn [Str.remove_char].
  destruct (Ascii.eqb x c); [exact IH | now rewrite append_cons, IH].
Qed.

Lemma all_chars_append (p : ascii -> bool) (a b : string) :
  all_chars p (a +:+ b) = all_chars p a && all_chars p b.
Proof.
  induction a as [|x a IH]; [reflexivity|]. rewrite append_cons. cbn [all_chars].
  now rewrite IH, andb_assoc.
Qed.

Lemma dash_not_digit : Str.is_digit "-" = false.
Proof. reflexivity. Qed.

Lemma remove_dash_digits (a : string) :
  all_digits a = true -> Str.remove_char "-" a = a.
Proof.
  unfold all_digits. induction a as [|x a IH]; [reflexivity|]. cbn [all_chars Str.remove_char].
  intros H. apply andb_true_iff in H as [Hx Ha].
  destruct (Ascii.eqb_spec x "-") as [->|_]; [discriminate Hx|]. now rewrite IH.
Qed.

(** Without its dashes, what the loose pattern accepts is a string of
    digits. *)
Lemma remove_dash_all_digits (g : string) :
  all_chars is_digit_or_dash g = true -> all_digits (Str.remove_char "-" g) = true.
Proof.
  unfold all_digits. induction g as [|x g IH]; [reflexivity|]. cbn [all_chars Str.remove_char].
  intros H. apply andb_true_iff in H as [Hx Hg].
  destruct (Ascii.eqb_spec x "-") as [->|Hne]; [now apply IH|].
  cbn [all_chars]. rewrite (IH Hg), andb_true_r.
  unfold is_digit_or_dash in Hx. apply orb_true_iff in Hx as [Hx|Hx]; [exact Hx|].
  apply Ascii.eqb_eq in Hx. contradiction.
Qed.

Lemma digits_or_dashes (a : string) :
  all_digits a = true -> all_chars is_digit_or_dash a = true.
Proof.
  unfold all_digits. induction a as [|x a IH]; [reflexivity|]. cbn [all_chars].
  intros H. apply andb_true_iff in H as [Hx Ha].
  unfold is_digit_or_dash at 1. now rewrite Hx, (IH Ha).
Qed.

(** A match of [search] is a match at the start of a suffix. *)
Lemma search_inv {A : Type} (at_start : string -> option A) (s : string) (r : A) :
  search at_start s = Some r -> exists pre suf, s = pre +:+ suf /\ at_start suf = Some r.
Proof.
  induction s as [|c s IH]; cbn [search].
  - destruct (at_start EmptyString) eqn:E; [|discriminate].
    intros [= <-]. now exists EmptyString, EmptyString.
  - destruct (at_start (String c s)) eqn:E.
    + intros [= <-]. now exists EmptyString, (String c s).
    + intros H. destruct (IH H) as (pre & suf & -> & Hs).
      now exists (String c pre), suf.
Qed.

Lemma strict_at_inv (s cik g : string) :
  strict_at s = Some (cik, g) ->
  all_digits cik = true /\ cik <> EmptyString /\ all_chars is_digit_or_dash g = true.
Proof.
  unfold strict_at. intros H.
  destruct (literal "edgar/data/" s) as [s1|]; [|discriminate]. cbn [mbind option_bind] in H.
  destruct (some_run Str.is_digit s1) as [[cik' s2]|] eqn:E1; [|discriminate].
  cbn [mbind option_bind] in H.
  destruct (literal "/" s2) as [s3|]; [|discriminate]. cbn [mbind option_bind] in H.
  destruct (digits 10 s3) as [[a s4]|] eqn:Ea; [|discriminate]. cbn [mbind option_bind] in H.
  destruct (literal "-" s4) as [s5|]; [|discriminate]. cbn [mbind option_bind] in H.
  destruct (digits 2 s5) as [[b s6]|] eqn:Eb; [|discriminate]. cbn [mbind option_bind] in H.
  destruct (literal "-" s6) as [s7|]; [|discriminate]. cbn [mbind option_bind] in H.
  destruct (digits 6 s7) as [[c s8]|] eqn:Ec; [|discriminate]. cbn [mbind option_bind] in H.
  destruct (literal ".txt" s8) as [s9|]; [|discriminate]. cbn [mbind option_bind] in H.
  injection H as <- <-.
  destruct (some_run_inv _ _ _ _ E1) as (Hcik & Hne & _).
  destruct (digits_inv _ _ _ _ Ea) as [Ha _].
  destruct (digits_inv _ _ _ _ Eb) as [Hb _].
  destruct (digits_inv _ _ _ _ Ec) as [Hc _].
  repeat split; [exact Hcik | exact Hne |].
  rewrite !all_chars_append.
  rewrite (digits_or_dashes a Ha), (digits_or_dashes b Hb), (digits_or_dashes c Hc).
  reflexivity.
Qed.

Lemma loose_at_inv (s cik g : string) :
  loose_at s = Some (cik, g) ->
  all_digits cik = true /\ cik <> EmptyString /\ all_chars is_digit_or_dash g = true.
Proof.
  unfold loose_at. intros H.
  destruct (literal "edgar/data/" s) as [s1|]; [|discriminate]. cbn [mbind option_bind] in H.
  destruct (some_run Str.is_digit s1) as [[cik' s2]|] eqn:E1; [|discriminate].
  cbn [mbind option_bind] in H.
  destruct (literal "/" s2) as [s3|]; [|discriminate]. cbn [mbind option_bind] in H.
  destruct (some_run is_digit_or_dash s3) as [[acc s4]|] eqn:E2; [|discriminate].
  cbn [mbind option_bind] in H.
  destruct (literal ".txt" s4) as [s5|]; [|discriminate]. cbn [mbind option_bind] in H.
  injection H as <- <-.
  destruct (some_run_inv _ _ _ _ E1) as (Hcik & Hne & _).
  destruct (some_run_inv _ _ _ _ E2) as (Hacc & _ & _).
  now repeat split.
Qed.

(** Whatever the Filename, an accession number that is returned consists
    of digits only, and the directory is the archive path of a numeric CIK
    read from the Filename followed by that accession number. *)
Theorem extract_accession_digits (filename : option string) (accession dirpath : string) :
  _extract_accession_and_dirpath filename = Ok (accession, dirpath) ->
  all_digits accession = true
  /\ exists cik, all_digits cik = true /\ cik <> EmptyString
                 /\ dirpath = SEC_BASE +:+ "/Archives/edgar/data/" +:+ cik +:+ "/" +:+ accession.
Proof.
  unfold _extract_accession_and_dirpath. destruct filename as [fn|]; [|discriminate].
  destruct (search strict_at fn) as [[cik g]|] eqn:E1.
  - intros [= <- <-]. apply search_inv in E1 as (pre & suf & _ & Hs).
    apply strict_at_inv in Hs as (Hcik & Hne & Hg).
    split; [now apply remove_dash_all_digits|]. now exists cik.
  - destruct (search loose_at fn) as [[cik g]|] eqn:E2; [|discriminate].
    intros [= <- <-]. apply search_inv in E2 as (pre & suf & _ & Hs).
    apply loose_at_inv in Hs as (Hcik & Hne & Hg).
    split; [now apply remove_dash_all_digits|]. now exists cik.
Qed.

Lemma strict_at_standard (cik a b c rest : string) :
  all_digits cik = true -> cik <> EmptyString ->
  all_digits a = true -> String.length a = 10%nat ->
  all_digits b = true -> String.length b = 2%nat ->
  all_digits c = true -> String.length c = 6%nat ->
  strict_at ("edgar/data/" +:+ cik +:+ "/" +:+ a +:+ "-" +:+ b +:+ "-" +:+ c +:+ ".txt" +:+ rest)
  = Some (cik, a +:+ "-" +:+ b +:+ "-" +:+ c).
Proof.
  intros Hcik Hne Ha La Hb Lb Hc Lc. unfold strict_at.
  rewrite literal_append. cbn [mbind option_bind].
  unfold some_run. change ("/" +:+ ?x) with (String "/" x).
  rewrite (take_while_append Str.is_digit cik "/") by (exact Hcik || reflexivity).
  destruct cik as [|c0 cik]; [congruence|]. cbn [mbind option_bind].
  rewrite literal_cons, literal_nil. cbn [mbind option_bind].
  rewrite (digits_append 10 a) by assumption. cbn [mbind option_bind].
  rewrite literal_append. cbn [mbind option_bind].
  rewrite (digits_append 2 b) by assumption. cbn [mbind option_bind].
  rewrite literal_append. cbn [mbind option_bind].
  rewrite (digits_append 6 c) by assumption. cbn [mbind option_bind].
  rewrite literal_append. reflexivity.
Qed.

(** The Filename of the daily index, [edgar/data/<cik>/<10 digits>-<2
    digits>-<6 digits>.txt]: the accession number is its eighteen digits,
    the directory the archive path of the CIK and those digits. *)
Theorem extract_accession_standard (cik a b c : string) :
  all_digits cik = true -> cik <> EmptyString ->
  all_digits a = true -> String.length a = 10%nat ->
  all_digits b = true -> String.length b = 2%nat ->
  all_digits c = true -> String.length c = 6%nat ->
  _extract_accession_and_dirpath
    (Some ("edgar/data/" +:+ cik +:+ "/" +:+ a +:+ "-" +:+ b +:+ "-" +:+ c +:+ ".txt"))
  = Ok (a +:+ b +:+ c,
        SEC_BASE +:+ "/Archives/edgar/data/" +:+ cik +:+ "/" +:+ a +:+ b +:+ c).
Proof.
  intros Hcik Hne Ha La Hb Lb Hc Lc. unfold _extract_accession_and_dirpath.
  pose proof (strict_at_standard cik a b c EmptyString Hcik Hne Ha La Hb Lb Hc Lc) as Hs.
  assert (".txt" +:+ EmptyString = ".txt") as Ht by reflexivity. rewrite Ht in Hs.
  assert (search strict_at
            ("edgar/data/" +:+ cik +:+ "/" +:+ a +:+ "-" +:+ b +:+ "-" +:+ c +:+ ".txt")
          = Some (cik, a +:+ "-" +:+ b +:+ "-" +:+ c)) as ->.
  { change ("edgar/data/" +:+ ?x) with (String "e" ("dgar/data/" +:+ x)).
    cbn [search].
    change (String "e" ("dgar/data/" +:+ ?x)) with ("edgar/data/" +:+ x).
    now rewrite Hs. }
  rewrite !remove_char_append.
  rewrite (remove_dash_digits a Ha), (remove_dash_digits b Hb), (remove_dash_digits c Hc).
  reflexivity.
Qed.

End Accession.

Lemma extract_accession_digits_witness :
  all_digits "000032019325000123" = true
  /\ exists cik, all_digits cik = true /\ cik <> EmptyString
                 /\ "https://www.sec.gov/Archives/edgar/data/320193/000032019325000123"%string
                    = SEC_BASE +:+ "/Archives/edgar/data/" +:+ cik +:+ "/"
                      +:+ "000032019325000123".
Proof.
  apply (extract_accession_digits
           (Some "edgar/data/320193/0000320193-25-000123.txt"%string)
           "000032019325000123"
           "https://www.sec.gov/Archives/edgar/data/320193/000032019325000123").
  reflexivity.
Defined.

Lemma extract_accession_standard_witness :
  _extract_accession_and_dirpath
    (Some ("edgar/data/" +:+ "320193" +:+ "/" +:+ "0000320193" +:+ "-" +:+ "25" +:+ "-"
           +:+ "000123" +:+ ".txt"))
  = Ok ("0000320193" +:+ "25" +:+ "000123",
        SEC_BASE +:+ "/Archives/edgar/data/" +:+ "320193" +:+ "/" +:+ "0000320193" +:+ "25"
          +:+ "000123").
Proof.
  apply (extract_accession_standard "320193" "0000320193" "25" "000123");
    (reflexivity || discriminate).
Defined.

(** ** The document of a filing directory *)

Lemma list_ascii_append (a b : string) :
  list_ascii_of_string (a +:+ b) = list_ascii_of_string a ++ list_ascii_of_string b.
Proof.
  induction a as [|c a IH]; [reflexivity|]. rewrite append_cons. cbn [list_ascii_of_string].
  now rewrite IH.
Qed.

Lemma string_of_list_app (l1 l2 : list ascii) :
  string_of_list_ascii (l1 ++ l2) = string_of_list_ascii l1 +:+ string_of_list_ascii l2.
Proof.
  induction l1 as [|c l1 IH]; [reflexivity|]. cbn [app string_of_list_ascii].
  now rewrite append_cons, IH.
Qed.

Lemma endswith_aux_inv (rs rp : list ascii) :
  Str.endswith_aux rs rp = true -> exists rest, rs = rp ++ rest.
Proof.
  revert rs. induction rp as [|a rp IH]; intros rs H; [now exists rs|].
  destruct rs as [|b rs]; [discriminate H|]. cbn [Str.endswith_aux] in H.
  apply andb_true_iff in H as [Hab H]. apply Ascii.eqb_eq in Hab as ->.
  destruct (IH rs H) as [rest ->]. now exists rest.
Qed.

Lemma endswith_aux_app (rp rest : list ascii) : Str.endswith_aux (rp ++ rest) rp = true.
Proof.
  induction rp as [|a rp IH]; [now destruct rest|]. cbn [app Str.endswith_aux].
  now rewrite Ascii.eqb_refl, IH.
Qed.

(** [s.endswith(p)] holds exactly of the strings that end with [p]. *)
Lemma endswith_inv (s p : string) : Str.endswith s p = true -> exists q, s = q +:+ p.
Proof.
  unfold Str.endswith. intros H. apply endswith_aux_inv in H as [rest H].
  exists (string_of_list_ascii (rev rest)).
  apply (f_equal (@rev ascii)) in H. rewrite rev_involutive, rev_app_distr, rev_involutive in H.
  rewrite <- (string_of_list_ascii_of_string s), H, string_of_list_app.
  now rewrite string_of_list_ascii_of_string.
Qed.

Lemma endswith_append (q p : string) : Str.endswith (q +:+ p) p = true.
Proof.
  unfold Str.endswith. rewrite list_ascii_append, rev_app_distr. apply endswith_aux_app.
Qed.

Lemma prefix_append (p rest : string) : String.prefix p (p +:+ rest) = true.
Proof.
  induction p as [|c p IH]; [now destruct rest|]. rewrite append_cons. cbn [String.prefix].
  destruct (ascii_dec c c) as [_|Hne]; [exact IH | contradiction].
Qed.

Lemma contains_here (p s : string) : String.prefix p s = true -> Str.contains p s = true.
Proof. intros H. destruct s; cbn [Str.contains]; now rewrite H. Qed.

Lemma contains_later (p : string) (c : ascii) (s : string) :
  Str.contains p s = true -> Str.contains p (String c s) = true.
Proof. intros H. cbn [Str.contains]. rewrite H. apply orb_true_r. Qed.

Lemma contains_append (p q rest : string) : Str.contains p (q +:+ p +:+ rest) = true.
Proof.
  induction q as [|c q IH].
  - change (EmptyString +:+ p +:+ rest) with (p +:+ rest).
    apply contains_here. apply prefix_append.
  - rewrite append_cons. now apply contains_later.
Qed.

(** Of the three tests on the name of an item the third decides: a name
    that equals [form4.xml], or ends with [_form4.xml], ends with [.xml]
    and contains [form4]. *)
Theorem is_form4_name_xml_with_form4 (name : string) :
  is_form4_name name = Str.endswith name ".xml" && Str.contains "form4" name.
Proof.
  unfold is_form4_name.
  destruct (String.eqb_spec name "form4.xml") as [->|_]; [reflexivity|].
  destruct (Str.endswith name "_form4.xml") eqn:E; [|reflexivity].
  apply endswith_inv in E as [q ->]. cbn [orb]. symmetry. apply andb_true_iff. split.
  - change "_form4.xml"%string with ("_form4" +:+ ".xml").
    rewrite <- append_assoc. apply endswith_append.
  - change "_form4.xml"%string with ("_" +:+ "form4" +:+ ".xml").
    rewrite <- append_assoc. apply contains_append.
Qed.

(** The scan returns at the first item whose lowered name looks like a
    Form 4 document, with the name as the listing spells it; every item
    before it has been passed over. *)
Theorem scan_items_first_match (dirpath : string) (items : list json) (u : string) :
  scan_items dirpath items = Ok (Some u) ->
  exists pre f s post,
    items = pre ++ f :: post
    /\ Forall passed_over pre
    /\ json_get f "name" (JStr EmptyString) = Ok (JStr s)
    /\ is_form4_name (Str.lower s) = true
    /\ u = dirpath +:+ "/" +:+ s.
Proof.
  induction items as [|f rest IH]; [discriminate|]. cbn [scan_items].
  destruct (json_get f "name" (JStr EmptyString)) as [v|e] eqn:Eget; [|discriminate].
  cbn [rbind]. destruct v as [| | | |s| |]; try discriminate.
  destruct (is_form4_name (Str.lower s)) eqn:Ename.
  - intros [= <-]. exists [], f, s, rest. repeat split; auto.
  - intros H. destruct (IH H) as (pre & g & s' & post & -> & Hpre & Hg & Hs' & ->).
    exists (f :: pre), g, s', post. repeat split; auto.
    constructor; [|exact Hpre]. now exists s.
Qed.

(** The scan ends without a document exactly when every item is passed
    over. *)
Theorem scan_items_none (dirpath : string) (items : list json) :
  scan_items dirpath items = Ok None <-> Forall passed_over items.
Proof.
  induction items as [|f rest IH]; [split; [constructor | reflexivity]|].
  cbn [scan_items]. split.
  - destruct (json_get f "name" (JStr EmptyString)) as [v|e] eqn:Eget; [|discriminate].
    cbn [rbind]. destruct v as [| | | |s| |]; try discriminate.
    destruct (is_form4_name (Str.lower s)) eqn:Ename; [discriminate|].
    intros H. constructor; [now exists s | now apply IH].
  - intros H. inversion H as [|? ? [s [Hget Hname]] Hrest]; subst.
    rewrite Hget. cbn [rbind]. rewrite Hname. now apply IH.
Qed.

Lemma scan_items_some (dirpath : string) (items : list json) (u : string) :
  scan_items dirpath items = Ok (Some u) ->
  exists s, is_form4_name (Str.lower s) = true /\ u = dirpath +:+ "/" +:+ s.
Proof.
  induction items as [|f rest IH]; [discriminate|]. cbn [scan_items].
  destruct (json_get f "name" (JStr EmptyString)) as [v|e]; [|discriminate].
  cbn [rbind]. destruct v as [| | | |s| |]; try discriminate.
  destruct (is_form4_name (Str.lower s)) eqn:Ename; [|exact IH].
  intros [= <-]. now exists s.
Qed.

(** The directory of a filing is a URL of the SEC server. *)
Lemma extract_dirpath_nonempty (filename : option string) (accession dirpath : string) :
  _extract_accession_and_dirpath filename = Ok (accession, dirpath) ->
  exists rest, dirpath = String "h" rest.
Proof.
  unfold _extract_accession_and_dirpath. destruct filename as [fn|]; [|discriminate].
  destruct (Re.search Re.strict_at fn) as [[cik g]|].
  - intros [= _ <-]. eexists. reflexivity.
  - destruct (Re.search Re.loose_at fn) as [[cik g]|]; [|discriminate].
    intros [= _ <-]. eexists. reflexivity.
Qed.

Section Locator.

Variable server : string -> result string.
Variable json_loads : string -> result json.
Variable py_int : string -> option Z.

Local Abbreviation find_form4_xml_url := (find_form4_xml_url server json_loads py_int).

(** A URL that the locator returns is never the empty string, so the
    test [if not xml_url] of the summary loop holds of [None] alone; the
    URL lies in the directory that the Filename names, whatever the [cik]
    argument, and ends with a name that looks like a Form 4 document. *)
Theorem find_form4_xml_url_in_directory (cik : string) (filename : option string)
    (u : string) :
  find_form4_xml_url cik filename = Ok (Some u) ->
  truthy (Some u) = true
  /\ exists accession dirpath name,
       _extract_accession_and_dirpath filename = Ok (accession, dirpath)
       /\ u = dirpath +:+ "/" +:+ name
       /\ is_form4_name (Str.lower name) = true.
Proof.
  unfold find_form4_xml_url.
  destruct (_extract_accession_and_dirpath filename) as [[accession dirpath]|e] eqn:Ex;
    [|discriminate].
  cbn [rbind]. destruct (_dir_index_json_url py_int cik accession) as [idx_url|e];
    [|discriminate].
  cbn [rbind].
  destruct (do raw <- _http_get server idx_url; json_loads raw) as [data|e]; [|discriminate].
  destruct (json_get data "directory" (JObj ∅)) as [directory|e]; [|discriminate].
  cbn [rbind]. destruct (json_get directory "item" (JArr [])) as [items|e]; [|discriminate].
  cbn [rbind]. destruct (json_iter items) as [fs|e]; [|discriminate].
  cbn [rbind]. intros H.
  apply scan_items_some in H as (s & Hs & ->).
  split.
  - destruct (extract_dirpath_nonempty _ _ _ Ex) as [rest ->]. reflexivity.
  - now exists accession, dirpath, s.
Qed.

End Locator.

Lemma scan_items_first_match_witness :
  exists pre f s post,
    [ JObj {[ "name"%string := JStr "index.htm" ]};
      JObj {[ "name"%string := JStr "Form4.XML" ]};
      JObj {[ "name"%string := JStr "form4.xml" ]} ] = pre ++ f :: post
    /\ Forall passed_over pre
    /\ json_get f "name" (JStr EmptyString) = Ok (JStr s)
    /\ is_form4_name (Str.lower s) = true
    /\ "https://www.sec.gov/d/Form4.XML"%string = "https://www.sec.gov/d" +:+ "/" +:+ s.
Proof.
  apply (scan_items_first_match "https://www.sec.gov/d"
           [ JObj {[ "name"%string := JStr "index.htm" ]};
             JObj {[ "name"%string := JStr "Form4.XML" ]};
             JObj {[ "name"%string := JStr "form4.xml" ]} ]
           "https://www.sec.gov/d/Form4.XML").
  vm_compute. reflexivity.
Defined.

Lemma find_form4_xml_url_in_directory_witness :
  truthy (Some "https://www.sec.gov/Archives/edgar/data/320193/000032019325000123/form4.xml"%string)
  = true
  /\ exists accession dirpath name,
       _extract_accession_and_dirpath
         (Some "edgar/data/320193/0000320193-25-000123.txt"%string)
       = Ok (accession, dirpath)
       /\ "https://www.sec.gov/Archives/edgar/data/320193/000032019325000123/form4.xml"%string
          = dirpath +:+ "/" +:+ name
       /\ is_form4_name (Str.lower name) = true.
Proof.
  apply (find_form4_xml_url_in_directory index_server sample_json_loads sample_int
           "0000320193" (Some "edgar/data/320193/0000320193-25-000123.txt"%string)).
  vm_compute. reflexivity.
Defined.

(** ** Rows and lines of the index *)

Section IndexRows.

Lemma split_nonempty (sep : ascii) (s : string) : Str.split sep s <> [].
Proof.
  destruct s as [|c s]; cbn [Str.split]; [discriminate|].
  destruct (Ascii.eqb c sep); [discriminate|].
  destruct (Str.split sep s); discriminate.
Qed.

Lemma join_cons_char (sep c : ascii) (f : string) (fs : list string) :
  join sep (String c f :: fs) = String c (join sep (f :: fs)).
Proof. destruct fs; reflexivity. Qed.

(** Splitting a line at a separator and joining the fields with it gives
    the line back. *)
Lemma join_split (sep : ascii) (s : string) : join sep (Str.split sep s) = s.
Proof.
  induction s as [|c s IH]; [reflexivity|]. cbn [Str.split].
  destruct (Ascii.eqb_spec c sep) as [->|Hne].
  - pose proof (split_nonempty sep s) as Hn.
    destruct (Str.split sep s) as [|f fs] eqn:E; [congruence|].
    cbn [join]. cbn [join] in IH. now rewrite IH.
  - pose proof (split_nonempty sep s) as Hn.
    destruct (Str.split sep s) as [|f fs] eqn:E; [congruence|].
    rewrite join_cons_char. now rewrite IH.
Qed.

(** A line with a separator has at least two fields. *)
Lemma split_two_fields (sep : ascii) (s : string) :
  Str.contains_char sep s = true -> (2 <= List.length (Str.split sep s))%nat.
Proof.
  induction s as [|c s IH]; [discriminate|]. cbn [Str.contains_char Str.split].
  pose proof (split_nonempty sep s) as Hn.
  destruct (Ascii.eqb c sep); cbn [orb].
  - intros _. destruct (Str.split sep s); [congruence | cbn [List.length]; lia].
  - intros H. specialize (IH H). destruct (Str.split sep s); [congruence | exact IH].
Qed.

Lemma cells_row_of_fields (fs : list string) :
  (List.length fs <= 5)%nat -> cells (row_of_fields fs) = fs.
Proof.
  intros H. destruct fs as [|a [|b [|c [|d [|e [|f fs]]]]]]; try reflexivity.
  cbn [List.length] in H. lia.
Qed.

Lemma widest_ge (rows : list (list string)) (r : list string) :
  In r rows -> (List.length r <= widest rows)%nat.
Proof.
  unfold widest. induction rows as [|x rows IH]; intros Hin; [destruct Hin|].
  cbn [fold_right]. destruct Hin as [->|Hin]; [lia|]. specialize (IH Hin). lia.
Qed.

Lemma data_lines_have_pipe (lines : list string) (ln : string) :
  In ln (data_lines lines) -> has_pipe ln = true.
Proof. unfold data_lines. intros H. now apply filter_In in H. Qed.

(** Nothing of a data line is lost or altered by the parse: the rows come
    in the order of the lines, the cells of a row joined by [|] are the
    line it was read from, and every row has a CIK and a Company Name. *)
Theorem parse_master_idx_rows_are_lines (text : string) (df : list idx_row) :
  parse_master_idx text = Ok df ->
  map (fun r => join "|" (cells r)) df = data_lines (Str.splitlines text)
  /\ Forall (fun r => ir_CIK r <> None /\ ir_Company_Name r <> None) df.
Proof.
  unfold parse_master_idx.
  destruct (data_lines (Str.splitlines text)) as [|ln lns] eqn:E.
  - intros [= <-]. split; [reflexivity | constructor].
  - rewrite <- E. clear ln lns E.
    set (dl := data_lines (Str.splitlines text)).
    destruct (map (Str.split "|") dl) as [|x xs] eqn:Erows.
    + intros [= <-]. apply map_eq_nil in Erows. rewrite Erows. split; [reflexivity|constructor].
    + rewrite <- Erows. clear x xs Erows. unfold DataFrame_of_rows.
      destruct (Nat.eqb_spec (widest (map (Str.split "|") dl)) (List.length idx_columns))
        as [Hw|]; [|discriminate].
      intros [= <-]. split.
      * rewrite !map_map. rewrite <- (map_id dl) at 2. apply map_ext_in.
        intros l Hl. rewrite cells_row_of_fields; [apply join_split|].
        change 5%nat with (List.length idx_columns). rewrite <- Hw.
        apply widest_ge. now apply in_map.
      * apply List.Forall_forall. intros r Hr. rewrite map_map in Hr.
        apply in_map_iff in Hr as [l [<- Hl]].
        apply data_lines_have_pipe, (split_two_fields "|") in Hl.
        destruct (Str.split "|" l) as [|a [|b fs]]; cbn [List.length] in Hl; try lia.
        split; discriminate.
Qed.

Lemma header_end_last_delimiter (pre : list string) (dash : string) (post : list string) :
  is_delimiter dash = true -> forallb (fun l => negb (is_delimiter l)) post = true ->
  header_end (pre ++ dash :: post) = S (List.length pre).
Proof.
  intros Hd. induction post as [|x post IH] using rev_ind; intros Hp.
  - rewrite header_end_snoc. unfold is_delimiter in Hd. now rewrite Hd.
  - rewrite forallb_app in Hp. apply andb_true_iff in Hp as [Hp Hx].
    cbn [forallb] in Hx. rewrite andb_true_r in Hx. apply negb_true_iff in Hx.
    change (pre ++ dash :: post ++ [x]) with (pre ++ (dash :: post) ++ [x]).
    rewrite app_assoc, header_end_snoc. unfold is_delimiter in Hx. rewrite Hx.
    now apply IH.
Qed.

(** Everything up to the last line that begins with five dashes is left
    out, that line included and pipe-delimited lines before it as well
    (the line of the column names is one): the data lines are the
    pipe-delimited lines after it. *)
Theorem data_lines_after_last_delimiter (pre : list string) (dash : string)
    (post : list string) :
  is_delimiter dash = true -> forallb (fun l => negb (is_delimiter l)) post = true ->
  data_lines (pre ++ dash :: post) = List.filter has_pipe post.
Proof.
  intros Hd Hp. unfold data_lines. rewrite (header_end_last_delimiter pre dash post Hd Hp).
  change (pre ++ dash :: post) with (pre ++ [dash] ++ post).
  rewrite app_assoc. rewrite skipn_app.
  rewrite skipn_all2 by (rewrite length_app; cbn [List.length]; lia).
  rewrite length_app. cbn [List.length app].
  replace (S (List.length pre) - (List.length pre + 1))%nat with O by lia.
  reflexivity.
Qed.

End IndexRows.

Lemma parse_master_idx_rows_are_lines_witness :
  map (fun r => join "|" (cells r))
    [ mk_idx_row (Some "320193") (Some "Apple Inc.") (Some "4") (Some "20250102")
        (Some "edgar/data/320193/0000320193-25-000123.txt");
      mk_idx_row (Some "789019") (Some "MICROSOFT CORP") (Some "10-K") (Some "20250102")
        (Some "edgar/data/789019/0000789019-25-000007.txt");
      mk_idx_row (Some "1318605") (Some "Tesla, Inc.") (Some "4/A") (Some "20250102")
        (Some "edgar/data/1318605/0001318605-25-000044.txt") ]%string
  = data_lines (Str.splitlines sample_idx)
  /\ Forall (fun r => ir_CIK r <> None /\ ir_Company_Name r <> None)
       [ mk_idx_row (Some "320193") (Some "Apple Inc.") (Some "4") (Some "20250102")
           (Some "edgar/data/320193/0000320193-25-000123.txt");
         mk_idx_row (Some "789019") (Some "MICROSOFT CORP") (Some "10-K") (Some "20250102")
           (Some "edgar/data/789019/0000789019-25-000007.txt");
         mk_idx_row (Some "1318605") (Some "Tesla, Inc.") (Some "4/A") (Some "20250102")
           (Some "edgar/data/1318605/0001318605-25-000044.txt") ]%string.
Proof.
  apply (parse_master_idx_rows_are_lines sample_idx). reflexivity.
Defined.

Lemma data_lines_after_last_delimiter_witness :
  data_lines (["CIK|Company Name|Form Type|Date Filed|File Name"%string]
              ++ "-----------"%string :: ["320193|Apple Inc.|4|20250102|a.txt"; "end"]%string)
  = List.filter has_pipe ["320193|Apple Inc.|4|20250102|a.txt"; "end"]%string.
Proof.
  apply (data_lines_after_last_delimiter
           ["CIK|Company Name|Form Type|Date Filed|File Name"%string] "-----------"
           ["320193|Apple Inc.|4|20250102|a.txt"; "end"]%string); reflexivity.
Defined.

(** ** The quarter of a day *)

Section Quarter.

Local Open Scope Z_scope.

Lemma month_range (dt : Date.datetime) : 1 <= Date.month dt <= 12.
Proof.
  unfold Date.month, Date.ymd. cbv zeta. cbn [fst snd].
  match goal with |- context [if ?b then _ else _] => destruct b eqn:E end;
    [apply Z.ltb_lt in E | apply Z.ltb_ge in E]; Z.div_mod_to_equations; lia.
Qed.

(** The quarter in the URL of a daily index is one of 1 to 4, and it is
    the quarter of the month: months 1 to 3 give 1, 4 to 6 give 2, 7 to 9
    give 3, 10 to 12 give 4. *)
Theorem quarter_of_month (dt : Date.datetime) :
  1 <= _quarter_of dt <= 4
  /\ 3 * _quarter_of dt - 2 <= Date.month dt <= 3 * _quarter_of dt.
Proof.
  pose proof (month_range dt) as H. unfold _quarter_of.
  Z.div_mod_to_equations. lia.
Qed.

End Quarter.

(** ** The baseline and the order of the rows *)

Section BaselineOrder.

Import Groupby.

Lemma dates_of_perm (w1 w2 : list filing) :
  Permutation w1 w2 -> Permutation (dates_of w1) (dates_of w2).
Proof. intros H. unfold dates_of. now apply Permutation_flat_map. Qed.

Lemma filings_per_day_perm (w1 w2 : list filing) :
  Permutation w1 w2 -> filings_per_day w1 = filings_per_day w2.
Proof.
  intros H. unfold filings_per_day.
  rewrite (sorted_keys_perm _ _ (dates_of_perm w1 w2 H)).
  apply map_ext. intros d. do 2 f_equal.
  apply Permutation_length. now do 2 apply filter_perm.
Qed.

(** The baseline does not depend on the order of the rows of the week. *)
Theorem weekly_baseline_reorder (w1 w2 : list filing) :
  Permutation w1 w2 -> weekly_baseline w1 = weekly_baseline w2.
Proof.
  intros H. unfold weekly_baseline. rewrite (filings_per_day_perm w1 w2 H).
  destruct w1 as [|r1 w1].
  - apply Permutation_nil in H. now subst w2.
  - destruct w2 as [|r2 w2]; [|reflexivity].
    symmetry in H. apply Permutation_nil in H. discriminate H.
Qed.

End BaselineOrder.

Lemma weekly_baseline_reorder_witness :
  weekly_baseline [ filed "2025-01-02" "a.txt"; filed "2025-01-03" "b.txt";
                    filed "2025-01-02" "c.txt" ]
  = weekly_baseline [ filed "2025-01-03" "b.txt"; filed "2025-01-02" "c.txt";
                      filed "2025-01-02" "a.txt" ].
Proof.
  apply (weekly_baseline_reorder
           [ filed "2025-01-02" "a.txt"; filed "2025-01-03" "b.txt";
             filed "2025-01-02" "c.txt" ]
           [ filed "2025-01-03" "b.txt"; filed "2025-01-02" "c.txt";
             filed "2025-01-02" "a.txt" ]).
  exact (Permutation_cons_append
           [ filed "2025-01-03" "b.txt"; filed "2025-01-02" "c.txt" ]
           (filed "2025-01-02" "a.txt")).
Defined.

(** ** A run without a network *)

Section NetworkDown.

Variable server : string -> result string.
Variable json_loads : string -> result json.
Variable py_int : string -> option Z.
Variable py_float : string -> option float.
Variable fromstring : string -> result element.
Variable to_datetime : option string -> option Z.

Local Abbreviation list_form4_filings_for_range := (list_form4_filings_for_range server).
Local Abbreviation collect_last24h_and_week := (collect_last24h_and_week server).
Local Abbreviation build_activity_summary := (build_activity_summary server json_loads py_int py_float fromstring to_datetime).

(** Every request fails. *)
Local Abbreviation down := (forall url, exists e, server url = Raise e).

Lemma day_rows_down (d : Z) : down -> day_rows server d = [].
Proof.
  intros Hdown. unfold day_rows, fetch_daily_master_idx, _http_get.
  destruct (Hdown (_idx_url_for_date d)) as [e ->]. reflexivity.
Qed.

Lemma list_form4_down (start_dt end_dt : Z) :
  down -> list_form4_filings_for_range start_dt end_dt = [].
Proof.
  intros Hdown. rewrite (list_form4_flat_map server).
  induction (seqZ start_dt (end_dt - start_dt + 1)) as [|d ds IH]; [reflexivity|].
  cbn [flat_map]. now rewrite (day_rows_down d Hdown), IH.
Qed.

(** When every request fails no exception leaves the data flow of the
    pipeline: both spans are empty, the summary of the last 24 hours is
    the empty table, the report has no top issuer and the baseline is
    0.0. *)
Theorem network_down_report (now max_filings : Z) :
  (forall url, exists e, server url = Raise e) ->
  let s := collect_last24h_and_week now in
  last24 s = [] /\ week s = []
  /\ exists last24_tx,
       build_activity_summary (last24 s) max_filings = Ok last24_tx
       /\ top_row (aggregate_by_issuer last24_tx) = None
       /\ weekly_baseline (week s) = 0%float.
Proof.
  intros Hdown. cbv zeta. unfold collect_last24h_and_week. cbn [last24 week].
  rewrite !(list_form4_down _ _ Hdown). split; [reflexivity|]. split; [reflexivity|].
  exists []. repeat split.
Qed.

End NetworkDown.

Lemma network_down_report_witness :
  let s := collect_last24h_and_week (fun _ => Raise HTTPError) 739253%Z in
  last24 s = [] /\ week s = []
  /\ exists last24_tx,
       build_activity_summary (fun _ => Raise HTTPError) sample_json_loads sample_int
         sample_float sample_fromstring sample_to_datetime (last24 s) 250%Z = Ok last24_tx
       /\ top_row (aggregate_by_issuer last24_tx) = None
       /\ weekly_baseline (week s) = 0%float.
Proof.
  apply (network_down_report (fun _ => Raise HTTPError) sample_json_loads sample_int
           sample_float sample_fromstring sample_to_datetime 739253%Z 250%Z).
  intros url. now exists HTTPError.
Defined.
